(** * Emotion fusion and emotion-conditioned catalogue matching

    A shallow embedding of [backend/models/fusion.py] (class
    [EmotionFusion]), of the matching, statistics and feature-estimation
    methods of [backend/spotify_handler.py] (class [SpotifyHandler],
    methods [recommend_by_emotion], [get_playlist_stats] and
    [_estimate_features]) and of the rule-based prediction of
    [backend/models/speech_emotion.py] (method [predict_from_features]).

    Conventions of the embedding.
    - [late_fusion] is embedded twice.  [EmotionFusion64] runs on binary64
      floats: sums, products, quotients and comparisons are those of
      IEEE 754 as Python performs them, infinities and NaN included, so
      its results are the values the code computes.  [EmotionFusion]
      reads the same code over exact rationals [Q]; it is used only for
      the calls without a usable modality, in which no arithmetic is
      done.
    - The cells of the playlist table are rationals; a missing cell
      (pandas NaN) is [None].  Cells are compared with the criteria
      ranges; the rounded duration of the statistics is kept unevaluated.
    - A Python [dict] that is only read with [.get] is a [gmap string _];
      a dict whose iteration order is observed (the fused distribution
      handed to [max]) carries its insertion order explicitly.
    - A [try: ... except Exception] block is a computation in the
      [Py.outcome] monad followed by a handler.
    - [DataFrame.sample] draws a row at random; the draw is a parameter. *)

From Stdlib Require Import QArith Floats.
From stdpp Require Import gmap strings list fin_maps.

Set Warnings "-inexact-float".

Open Scope Q_scope.

(** ** Python-level helpers *)

Module Py.

Inductive exn : Type :=
| ValueError (msg : string)
| ZeroDivisionError.

Inductive outcome (A : Type) : Type :=
| Return (a : A)
| Raise (e : exn).
Arguments Return {A} a.
Arguments Raise {A} e.

Definition bind {A B} (c : outcome A) (k : A -> outcome B) : outcome B :=
  match c with
  | Return a => k a
  | Raise e => Raise e
  end.

(** [[f(x) for x in l]] where [f] may raise. *)
Fixpoint mapM {A B} (f : A -> outcome B) (l : list A) : outcome (list B) :=
  match l with
  | [] => Return []
  | x :: l' =>
      bind (f x) (fun y => bind (mapM f l') (fun ys => Return (y :: ys)))
  end.

(** [x / y] on floats: raises when the divisor is zero. *)
Definition truediv (x y : Q) : outcome Q :=
  if Qeq_bool y 0 then Raise ZeroDivisionError else Return (x / y).

(** The builtin [sum]: starts from [0] and adds from the left. *)
Definition sum (l : list Q) : Q := foldl Qplus 0 l.

(** [d.get(k, dflt)]. *)
Definition get {V} (d : gmap string V) (k : string) (dflt : V) : V :=
  default dflt (d !! k).

(** The scan of the builtin [max(iterable, key=...)]: the running maximum
    is replaced only by an item whose key is strictly greater. *)
Fixpoint max_from (key : string -> Q) (best : string) (rest : list string)
  : string :=
  match rest with
  | [] => best
  | x :: rest' =>
      if Qlt_le_dec (key best) (key x)
      then max_from key x rest'
      else max_from key best rest'
  end.

Definition max (key : string -> Q) (items : list string) : outcome string :=
  match items with
  | [] => Raise (ValueError "max() arg is an empty sequence")
  | x :: rest => Return (max_from key x rest)
  end.

(** A [dict] together with its insertion order. *)
Record odict : Type := { keys : list string; store : gmap string Q }.

Definition empty : odict := {| keys := []; store := ∅ |}.

(** [d[k] = v]: a new key goes last, an old key keeps its place. *)
Definition setitem (d : odict) (k : string) (v : Q) : odict :=
  {| keys := if decide (k ∈ keys d) then keys d else keys d ++ [k];
     store := <[k := v]> (store d) |}.

(** [d[k] += v].  Every use below is on a key inserted beforehand, so
    the [KeyError] of a missing key is not represented. *)
Definition iadd (d : odict) (k : string) (v : Q) : odict :=
  match store d !! k with
  | Some old => setitem d k (old + v)
  | None => d
  end.

(** [{k: f(k) for k in l}]. *)
Definition comprehension (f : string -> Q) (l : list string) : odict :=
  foldl (fun d k => setitem d k (f k)) empty l.

(** [d.get] as the key function of [max]. *)
Definition value (d : odict) (k : string) : Q := get (store d) k 0.

End Py.

(** [x ← c; k] runs [k] on the value of [c] and propagates an exception. *)
#[global] Instance outcome_bind : MBind Py.outcome :=
  fun A B k c => Py.bind c k.

(** ** [models/fusion.py] *)

Module Modality.
(** The result mapping of one detector; only the two fields the fusion
    module reads are kept. *)
Record result : Type :=
  { probabilities : option (gmap string Q);
    confidence : option Q }.
End Modality.

Module EmotionFusion.

Definition CANONICAL_EMOTIONS : list string :=
  ["happy"; "sad"; "angry"; "calm"; "neutral"; "excited"].

Definition default_weights : gmap string Q :=
  {[ "face" := 0.4; "speech" := 0.3; "text" := 0.3 ]}.

Record FusionResult : Type :=
  { emotion_fused : string;
    confidence : Q;
    probabilities : Py.odict;
    modalities_used : list string;
    weights : gmap string Q }.

(** The three parallel lists built by the [if ... in ...] blocks. *)
Record collected : Type :=
  { available_modalities : list string;
    modality_probs : list (gmap string Q);
    modality_weights : list Q }.

(** [if r and 'probabilities' in r: ...append(...)].  A mapping holding
    the key is non-empty, hence truthy. *)
Definition collect (name : string) (dflt : Q) (r : option Modality.result)
    (weights : gmap string Q) (c : collected) : collected :=
  match r ≫= Modality.probabilities with
  | Some probs =>
      {| available_modalities := available_modalities c ++ [name];
         modality_probs := modality_probs c ++ [probs];
         modality_weights := modality_weights c ++ [Py.get weights name dflt] |}
  | None => c
  end.

Definition collect_all (face_result speech_result text_result : option Modality.result)
    (weights : option (gmap string Q)) : collected :=
  let weights := default default_weights weights in
  let c := {| available_modalities := []; modality_probs := [];
              modality_weights := [] |} in
  let c := collect "face" 0.4 face_result weights c in
  let c := collect "speech" 0.3 speech_result weights c in
  collect "text" 0.3 text_result weights c.

(** The body of the inner [for emotion in CANONICAL_EMOTIONS] loop. *)
Definition accumulate (fused_probs : Py.odict) (pw : gmap string Q * Q)
  : Py.odict :=
  foldl (fun d emotion => Py.iadd d emotion (Py.get pw.1 emotion 0 * pw.2))
        fused_probs CANONICAL_EMOTIONS.

Definition weighted_average (probs : list (gmap string Q)) (ws : list Q)
  : Py.odict :=
  foldl accumulate (Py.comprehension (fun _ => 0) CANONICAL_EMOTIONS)
        (zip probs ws).

(** The [try] block of [late_fusion].  The modality names are distinct, so
    [dict(zip(...))] holds one entry per used modality. *)
Definition late_fusion_try
    (face_result speech_result text_result : option Modality.result)
    (weights : option (gmap string Q)) : Py.outcome FusionResult :=
  let c := collect_all face_result speech_result text_result weights in
  if (length (available_modalities c) =? 0)%nat
  then Py.Raise (Py.ValueError "No valid modality results provided")
  else
    let total_weight := Py.sum (modality_weights c) in
    normalized_weights ←
      Py.mapM (fun w => Py.truediv w total_weight) (modality_weights c);
    let fused_probs := weighted_average (modality_probs c) normalized_weights in
    top_emotion ← Py.max (Py.value fused_probs) (Py.keys fused_probs);
    Py.Return
      {| emotion_fused := top_emotion;
         confidence := Py.value fused_probs top_emotion;
         probabilities := fused_probs;
         modalities_used := available_modalities c;
         weights := list_to_map (zip (available_modalities c) normalized_weights) |}.

(** The value of the [except Exception] handler. *)
Definition neutral_result : FusionResult :=
  {| emotion_fused := "neutral";
     confidence := 0.5;
     probabilities := Py.comprehension (fun _ => 1 / 6) CANONICAL_EMOTIONS;
     modalities_used := [];
     weights := ∅ |}.

(** The whole method: every exception of the body is caught. *)
Definition late_fusion
    (face_result speech_result text_result : option Modality.result)
    (weights : option (gmap string Q)) : Py.outcome FusionResult :=
  match late_fusion_try face_result speech_result text_result weights with
  | Py.Return r => Py.Return r
  | Py.Raise _ => Py.Return neutral_result
  end.

End EmotionFusion.

(** ** [spotify_handler.py] *)

Module SpotifyHandler.

(** One row of the cached playlist table.  A numeric cell is [None] when
    the CSV cell is empty (NaN). *)
Record Row : Type :=
  { track_id : string;
    title : string;
    artist : string;
    album : string;
    image_url : string;
    preview_url : string;
    url : string;
    duration_ms : option Z;
    valence : option Q;
    energy : option Q;
    tempo : option Q;
    danceability : option Q;
    acousticness : option Q;
    key : Z;
    mode : Z }.

(** [self.playlist_df] holds a [DataFrame], or [None] before any load. *)
Abbreviation DataFrame := (list Row).

(** [df[feature]] for the float columns. *)
Definition column (feature : string) (r : Row) : option Q :=
  if decide (feature = "valence") then valence r
  else if decide (feature = "energy") then energy r
  else if decide (feature = "tempo") then tempo r
  else if decide (feature = "danceability") then danceability r
  else if decide (feature = "acousticness") then acousticness r
  else None.

Definition Criteria : Type := list (string * (Q * Q)).

Definition EMOTION_CRITERIA : list (string * Criteria) :=
  [ ("happy",   [("valence", (0.6, 1.0)); ("energy", (0.5, 1.0))]);
    ("sad",     [("valence", (0.0, 0.4)); ("energy", (0.0, 0.6))]);
    ("angry",   [("valence", (0.0, 0.5)); ("energy", (0.6, 1.0))]);
    ("calm",    [("valence", (0.4, 1.0)); ("energy", (0.0, 0.4))]);
    ("neutral", [("valence", (0.3, 0.7)); ("energy", (0.3, 0.7))]);
    ("excited", [("valence", (0.5, 1.0)); ("energy", (0.7, 1.0))]) ].

(** [EMOTION_CRITERIA[emotion]]; the key is always present where this
    is used. *)
Definition criteria_at (emotion : string) : Criteria :=
  default [] ((list_to_map EMOTION_CRITERIA : gmap string Criteria) !! emotion).

(** [(col >= min_val) & (col <= max_val)]: a comparison with NaN is
    false. *)
Definition between (cell : option Q) (min_val max_val : Q) : bool :=
  match cell with
  | Some x => Qle_bool min_val x && Qle_bool x max_val
  | None => false
  end.

(** The [for feature, (min_val, max_val) in criteria.items()] loop. *)
Definition apply_criteria (criteria : Criteria) (df : DataFrame) : DataFrame :=
  foldl (fun filtered_df c =>
           List.filter (fun r => between (column c.1 r) c.2.1 c.2.2) filtered_df)
        df criteria.

(** Truth value of an [Optional[str]]: [None] and [""] are false. *)
Definition truthy (s : option string) : bool :=
  match s with
  | Some s => negb (String.eqb s "")
  | None => false
  end.

(** [df.sample(n=1).iloc[0]]: the draw is a parameter; sampling from an
    empty frame raises. *)
Definition sample (df : DataFrame) (draw : nat) : Py.outcome Row :=
  match df !! (draw mod length df)%nat with
  | Some r => Py.Return r
  | None => Py.Raise (Py.ValueError "a must be greater than 0 unless no samples are taken")
  end.

Record Song : Type :=
  { song_id : string;
    song_title : string;
    song_artist : string;
    song_album : string;
    song_image_url : string;
    song_preview_url : string;
    song_url : string;
    song_valence : option Q;
    song_energy : option Q;
    song_duration_ms : Z }.

(** [int(cell)]: a missing cell (NaN) raises. *)
Definition int_of (cell : option Z) : Py.outcome Z :=
  match cell with
  | Some n => Py.Return n
  | None => Py.Raise (Py.ValueError "cannot convert float NaN to integer")
  end.

(** The mapping built from the drawn row; [float] keeps a missing
    valence or energy as NaN, [int] raises on a missing duration. *)
Definition song_of (song : Row) : Py.outcome Song :=
  duration ← int_of (duration_ms song);
  Py.Return
    {| song_id := track_id song;
       song_title := title song;
       song_artist := artist song;
       song_album := album song;
       song_image_url := image_url song;
       song_preview_url := preview_url song;
       song_url := url song;
       song_valence := valence song;
       song_energy := energy song;
       song_duration_ms := duration |}.

(** [self.playlist_df is None or len(self.playlist_df) == 0]. *)
Definition not_loaded (playlist_df : option DataFrame) : bool :=
  match playlist_df with
  | None => true
  | Some df => (length df =? 0)%nat
  end.

(** The [try] block of [recommend_by_emotion]; the inner [None] is the
    returned [None]. *)
Definition recommend_try (playlist_df : option DataFrame) (emotion : string)
    (current_song_id : option string) (draw : nat) : Py.outcome (option Song) :=
  if not_loaded playlist_df then Py.Return None
  else
    let playlist_df := default [] playlist_df in
    let criteria :=
      Py.get (list_to_map EMOTION_CRITERIA) emotion (criteria_at "neutral") in
    let filtered_df := apply_criteria criteria playlist_df in
    let filtered_df :=
      if truthy current_song_id
      then List.filter
             (fun r => negb (bool_decide (Some (track_id r) = current_song_id)))
             filtered_df
      else filtered_df in
    let filtered_df :=
      if (length filtered_df =? 0)%nat then playlist_df else filtered_df in
    song ← sample filtered_df draw;
    result ← song_of song;
    Py.Return (Some result).

Definition recommend_by_emotion (playlist_df : option DataFrame)
    (emotion : string) (current_song_id : option string) (draw : nat)
  : option Song :=
  match recommend_try playlist_df emotion current_song_id draw with
  | Py.Return r => r
  | Py.Raise _ => None
  end.

(** Values of the statistics mapping.  [VRound2 n d] stands for the float
    [round(n / d, 2)] of the runtime, which is kept unevaluated. *)
Inductive value : Type :=
| VInt (n : Z)
| VFloat (x : option Q)
| VRound2 (n d : Z)
| VBool (b : bool)
| VCounts (d : gmap string nat).

(** [Series.mean()]: NaN cells are skipped; NaN when nothing is left. *)
Definition mean (cells : list (option Q)) : option Q :=
  let xs := omap id cells in
  match xs with
  | [] => None
  | _ => Some (Py.sum xs / inject_Z (Z.of_nat (length xs)))
  end.

Definition mood_distribution (playlist_df : DataFrame) : gmap string nat :=
  foldl (fun mood_distribution emotion =>
           let criteria := criteria_at emotion in
           let filtered := apply_criteria criteria playlist_df in
           <[emotion := length filtered]> mood_distribution)
        ∅ (map fst EMOTION_CRITERIA).

(** [get_playlist_stats]; [Series.sum()] skips missing cells.  Nothing
    in its [try] block raises on a typed table, so the [{'error': ...}]
    handler is not represented. *)
Definition get_playlist_stats (playlist_df : option DataFrame) : gmap string value :=
  if not_loaded playlist_df then
    {[ "total_songs" := VInt 0;
       "total_duration_hours" := VInt 0;
       "average_valence" := VInt 0;
       "average_energy" := VInt 0;
       "cached" := VBool false ]}
  else
    let playlist_df := default [] playlist_df in
    let total_duration_ms := foldl Z.add 0%Z (omap duration_ms playlist_df) in
    {[ "total_songs" := VInt (Z.of_nat (length playlist_df));
       "total_duration_hours" := VRound2 total_duration_ms (1000 * 60 * 60);
       "average_valence" := VFloat (mean (map valence playlist_df));
       "average_energy" := VFloat (mean (map energy playlist_df));
       "average_tempo" := VFloat (mean (map tempo playlist_df));
       "mood_distribution" := VCounts (mood_distribution playlist_df);
       "cached" := VBool true ]}.

End SpotifyHandler.

Import EmotionFusion SpotifyHandler.

(** ** [models/fusion.py] over binary64 floats

    The same method with the arithmetic CPython runs: [float] is IEEE 754
    binary64, [+], [*], [/] round to nearest even, and [<], [==] are the
    IEEE comparisons. *)

Module Py64.

(** [x / y] on floats: raises when the divisor equals zero. *)
Definition truediv (x y : float) : Py.outcome float :=
  if (y =? 0)%float then Py.Raise Py.ZeroDivisionError
  else Py.Return (x / y)%float.

(** The builtin [sum]: starts from [0] and adds from the left, rounding
    each addition (the loop of CPython up to 3.11; from 3.12 on [sum]
    compensates the rounding errors of floats). *)
Definition sum (l : list float) : float := foldl PrimFloat.add 0%float l.

(** The scan of [max(iterable, key=...)]: the running maximum is
    replaced only by an item whose key is strictly greater. *)
Fixpoint max_from (key : string -> float) (best : string) (rest : list string)
  : string :=
  match rest with
  | [] => best
  | x :: rest' =>
      if (key best <? key x)%float
      then max_from key x rest'
      else max_from key best rest'
  end.

Definition max (key : string -> float) (items : list string)
  : Py.outcome string :=
  match items with
  | [] => Py.Raise (Py.ValueError "max() arg is an empty sequence")
  | x :: rest => Py.Return (max_from key x rest)
  end.

(** A [dict] of floats together with its insertion order. *)
Record odict : Type := { keys : list string; store : gmap string float }.

Definition empty : odict := {| keys := []; store := ∅ |}.

Definition setitem (d : odict) (k : string) (v : float) : odict :=
  {| keys := if decide (k ∈ keys d) then keys d else keys d ++ [k];
     store := <[k := v]> (store d) |}.

(** [d[k] += v], on a key inserted beforehand. *)
Definition iadd (d : odict) (k : string) (v : float) : odict :=
  match store d !! k with
  | Some old => setitem d k (old + v)%float
  | None => d
  end.

Definition comprehension (f : string -> float) (l : list string) : odict :=
  foldl (fun d k => setitem d k (f k)) empty l.

Definition value (d : odict) (k : string) : float := Py.get (store d) k 0%float.

End Py64.

Module Modality64.
Record result : Type :=
  { probabilities : option (gmap string float);
    confidence : option float }.
End Modality64.

Module EmotionFusion64.

Definition CANONICAL_EMOTIONS : list string :=
  ["happy"; "sad"; "angry"; "calm"; "neutral"; "excited"].

Definition default_weights : gmap string float :=
  {[ "face" := 0.4%float; "speech" := 0.3%float; "text" := 0.3%float ]}.

Record FusionResult : Type :=
  { emotion_fused : string;
    confidence : float;
    probabilities : Py64.odict;
    modalities_used : list string;
    weights : gmap string float }.

Record collected : Type :=
  { available_modalities : list string;
    modality_probs : list (gmap string float);
    modality_weights : list float }.

Definition collect (name : string) (dflt : float) (r : option Modality64.result)
    (weights : gmap string float) (c : collected) : collected :=
  match r ≫= Modality64.probabilities with
  | Some probs =>
      {| available_modalities := available_modalities c ++ [name];
         modality_probs := modality_probs c ++ [probs];
         modality_weights := modality_weights c ++ [Py.get weights name dflt] |}
  | None => c
  end.

Definition collect_all
    (face_result speech_result text_result : option Modality64.result)
    (weights : option (gmap string float)) : collected :=
  let weights := default default_weights weights in
  let c := {| available_modalities := []; modality_probs := [];
              modality_weights := [] |} in
  let c := collect "face" 0.4%float face_result weights c in
  let c := collect "speech" 0.3%float speech_result weights c in
  collect "text" 0.3%float text_result weights c.

Definition accumulate (fused_probs : Py64.odict) (pw : gmap string float * float)
  : Py64.odict :=
  foldl (fun d emotion =>
           Py64.iadd d emotion (Py.get pw.1 emotion 0 * pw.2)%float)
        fused_probs CANONICAL_EMOTIONS.

Definition weighted_average (probs : list (gmap string float)) (ws : list float)
  : Py64.odict :=
  foldl accumulate (Py64.comprehension (fun _ => 0%float) CANONICAL_EMOTIONS)
        (zip probs ws).

Definition late_fusion_try
    (face_result speech_result text_result : option Modality64.result)
    (weights : option (gmap string float)) : Py.outcome FusionResult :=
  let c := collect_all face_result speech_result text_result weights in
  if (length (available_modalities c) =? 0)%nat
  then Py.Raise (Py.ValueError "No valid modality results provided")
  else
    let total_weight := Py64.sum (modality_weights c) in
    normalized_weights ←
      Py.mapM (fun w => Py64.truediv w total_weight) (modality_weights c);
    let fused_probs := weighted_average (modality_probs c) normalized_weights in
    top_emotion ← Py64.max (Py64.value fused_probs) (Py64.keys fused_probs);
    Py.Return
      {| emotion_fused := top_emotion;
         confidence := Py64.value fused_probs top_emotion;
         probabilities := fused_probs;
         modalities_used := available_modalities c;
         weights := list_to_map (zip (available_modalities c) normalized_weights) |}.

Definition neutral_result : FusionResult :=
  {| emotion_fused := "neutral";
     confidence := 0.5%float;
     probabilities := Py64.comprehension (fun _ => (1 / 6)%float) CANONICAL_EMOTIONS;
     modalities_used := [];
     weights := ∅ |}.

Definition late_fusion
    (face_result speech_result text_result : option Modality64.result)
    (weights : option (gmap string float)) : Py.outcome FusionResult :=
  match late_fusion_try face_result speech_result text_result weights with
  | Py.Return r => Py.Return r
  | Py.Raise _ => Py.Return neutral_result
  end.

End EmotionFusion64.

(** ** More Python-level helpers *)

Module PyMore.

(** [d.values()], in insertion order. *)
Definition values (d : Py64.odict) : list float :=
  map (Py64.value d) (Py64.keys d).

(** [{k: v / total for k, v in d.items()}]; the one use is guarded by
    [total > 0], so the division does not raise. *)
Definition scaled (d : Py64.odict) (total : float) : Py64.odict :=
  Py64.comprehension (fun k => (Py64.value d k / total)%float) (Py64.keys d).

(** [needle in haystack] on strings. *)
Definition contains (needle haystack : string) : bool :=
  match String.index 0 needle haystack with
  | Some _ => true
  | None => false
  end.

(** [any(k in text for k in keywords)]. *)
Definition any_in (keywords : list string) (text : string) : bool :=
  existsb (fun k => contains k text) keywords.

(** The builtins [max(a, b)] and [min(a, b)] on two floats: the first
    argument is kept unless the second is strictly beyond it. *)
Definition max2 (a b : float) : float := if (a <? b)%float then b else a.
Definition min2 (a b : float) : float := if (b <? a)%float then b else a.

(** Lower-casing of the letters A to Z, the behaviour of [str.lower] on
    ASCII text; used to run the functions below on concrete inputs. *)
Definition ascii_lower_char (c : Ascii.ascii) : Ascii.ascii :=
  let n := Ascii.nat_of_ascii c in
  if ((65 <=? n) && (n <=? 90))%nat then Ascii.ascii_of_nat (n + 32) else c.

Fixpoint ascii_lower (s : string) : string :=
  match s with
  | EmptyString => EmptyString
  | String c s' => String (ascii_lower_char c) (ascii_lower s')
  end.

End PyMore.

(** ** [models/speech_emotion.py] *)

Module SpeechEmotionDetector.

Definition CANONICAL_EMOTIONS : list string :=
  ["happy"; "sad"; "angry"; "calm"; "neutral"; "excited"].

(** The entries of [features] read by [predict_from_features]; each is
    a [float] built by [extract_features]. *)
Record Features : Type :=
  { energy : float;
    tempo : float;
    pitch : float;
    zcr : float }.

(** The returned mapping. *)
Record prediction : Type :=
  { emotion : string;
    confidence : float;
    probabilities : Py64.odict }.

(** [predict_from_features].  It has no handler of its own, so its
    outcome is kept. *)
Definition predict_from_features (features : Features)
  : Py.outcome prediction :=
  let energy := energy features in
  let tempo := tempo features in
  let pitch := pitch features in
  let zcr := zcr features in
  let probs := Py64.comprehension (fun _ => 0%float) CANONICAL_EMOTIONS in
  let probs :=
    if (0.05 <? energy)%float && (120 <? tempo)%float then
      let probs := Py64.setitem probs "excited" 0.4%float in
      let probs := Py64.setitem probs "angry" 0.2%float in
      Py64.setitem probs "happy" 0.2%float
    else if (energy <? 0.03)%float && (tempo <? 100)%float then
      let probs := Py64.setitem probs "sad" 0.3%float in
      let probs := Py64.setitem probs "calm" 0.3%float in
      Py64.setitem probs "neutral" 0.2%float
    else if (0.04 <? energy)%float
            && ((100 <=? tempo)%float && (tempo <=? 130)%float) then
      let probs := Py64.setitem probs "happy" 0.4%float in
      let probs := Py64.setitem probs "excited" 0.2%float in
      Py64.setitem probs "neutral" 0.2%float
    else if (energy <? 0.04)%float
            && ((90 <=? tempo)%float && (tempo <=? 120)%float) then
      let probs := Py64.setitem probs "calm" 0.4%float in
      let probs := Py64.setitem probs "neutral" 0.3%float in
      Py64.setitem probs "sad" 0.1%float
    else probs in
  let probs :=
    if (0.1 <? zcr)%float then
      let probs := Py64.iadd probs "angry" 0.1%float in
      Py64.iadd probs "excited" 0.1%float
    else probs in
  let probs :=
    if (Py64.sum (PyMore.values probs) <? 0.5)%float
    then Py64.setitem probs "neutral" 0.5%float
    else probs in
  let total := Py64.sum (PyMore.values probs) in
  let probs :=
    if (0 <? total)%float
    then PyMore.scaled probs total
    else Py64.comprehension (fun _ => (1 / 6)%float) CANONICAL_EMOTIONS in
  top_emotion ← Py64.max (Py64.value probs) (Py64.keys probs);
  Py.Return
    {| emotion := top_emotion;
       confidence := Py64.value probs top_emotion;
       probabilities := probs |}.

End SpeechEmotionDetector.

(** ** [spotify_handler.py]: feature estimation *)

Module GenreFeatures.

Definition happy_keywords : list string :=
  ["pop"; "dance"; "disco"; "funk"; "happy"; "upbeat"; "party"; "summer"; "synthpop"].
Definition sad_keywords : list string :=
  ["sad"; "acoustic"; "ballad"; "slow"; "blues"; "folk"; "indie folk";
   "melancholy"; "piano"; "heartbreak"].
Definition angry_keywords : list string :=
  ["metal"; "rock"; "punk"; "grunge"; "aggressive"; "hardcore"; "screamo";
   "industrial"].
Definition calm_keywords : list string :=
  ["classical"; "jazz"; "ambient"; "chill"; "lo-fi"; "piano"; "meditation";
   "sleep"; "instrumental"].
Definition excited_keywords : list string :=
  ["edm"; "techno"; "house"; "party"; "electronic"; "dubstep"; "drum and bass";
   "trance"; "club"].

Section Lower.

(** [str.lower]. *)
Variable lower : string -> string.

(** [_estimate_features]. *)
Definition _estimate_features (genres : list string) : gmap string float :=
  let valence := 0.5%float in
  let energy := 0.5%float in
  if bool_decide (genres = []) then
    {[ "valence" := valence; "energy" := energy ]}
  else
    let genre_text := lower (String.concat " " genres) in
    let '(valence, energy) :=
      if PyMore.any_in happy_keywords genre_text
      then ((valence + 0.4)%float, (energy + 0.3)%float)
      else (valence, energy) in
    let '(valence, energy) :=
      if PyMore.any_in sad_keywords genre_text
      then ((valence - 0.4)%float, (energy - 0.3)%float)
      else (valence, energy) in
    let '(valence, energy) :=
      if PyMore.any_in angry_keywords genre_text
      then ((valence - 0.3)%float, (energy + 0.4)%float)
      else (valence, energy) in
    let '(valence, energy) :=
      if PyMore.any_in calm_keywords genre_text
      then ((valence + 0.2)%float, (energy - 0.4)%float)
      else (valence, energy) in
    let '(valence, energy) :=
      if PyMore.any_in excited_keywords genre_text
      then ((valence + 0.3)%float, (energy + 0.5)%float)
      else (valence, energy) in
    {[ "valence" := PyMore.max2 0 (PyMore.min2 1 valence);
       "energy" := PyMore.max2 0 (PyMore.min2 1 energy) ]}.

End Lower.

End GenreFeatures.

(** ** Concrete inputs used below *)

(** A detector result without the [probabilities] field. *)
Definition unusable_sample : option Modality.result :=
  Some {| Modality.probabilities := None; Modality.confidence := Some 0.9 |}.

Definition track (id : string) (v e : Q) : Row :=
  {| track_id := id; title := id; artist := ""; album := ""; image_url := "";
     preview_url := ""; url := ""; duration_ms := Some 180000%Z; valence := Some v;
     energy := Some e; tempo := Some 120; danceability := Some 0.5;
     acousticness := Some 0.5; key := 0; mode := 1 |}.

Definition track_A : Row := track "A" 0.8 0.8.

(** The mapping returned for [track_A], written out. *)
Definition song_A : Song :=
  {| song_id := "A"; song_title := "A"; song_artist := ""; song_album := "";
     song_image_url := ""; song_preview_url := ""; song_url := "";
     song_valence := Some 0.8; song_energy := Some 0.8;
     song_duration_ms := 180000 |}.

(** A row whose [duration_ms] cell is empty. *)
Definition track_untimed : Row :=
  {| track_id := "U"; title := "U"; artist := ""; album := ""; image_url := "";
     preview_url := ""; url := ""; duration_ms := None; valence := Some 0.1;
     energy := Some 0.1; tempo := Some 120; danceability := Some 0.5;
     acousticness := Some 0.5; key := 0; mode := 1 |}.

Definition track_B : Row := track "B" 0.1 0.1.
Definition track_C : Row := track "C" 0.5 0.5.

(** Detector results over binary64. *)
Definition result64 (p : gmap string float) : option Modality64.result :=
  Some {| Modality64.probabilities := Some p; Modality64.confidence := None |}.

Definition face_happy64 : option Modality64.result :=
  result64 {[ "happy" := 1%float ]}.
Definition speech_sad64 : option Modality64.result :=
  result64 {[ "sad" := 1%float ]}.
Definition face_mostly_sad64 : option Modality64.result :=
  result64 {[ "happy" := 0.2%float; "sad" := 0.8%float ]}.
Definition speech_mostly_happy64 : option Modality64.result :=
  result64 {[ "happy" := 0.9%float; "sad" := 0.1%float ]}.

(** ** Vocabulary of the statements *)

(** A detector result that the fusion can use: present and holding
    [probabilities]. *)
Definition usable (r : option Modality.result) : Prop :=
  is_Some (r ≫= Modality.probabilities).

(** The criteria looked up by [recommend_by_emotion]: those of the
    label, or those of [neutral] for an unknown label. *)
Definition criteria_for (emotion : string) : Criteria :=
  Py.get (list_to_map EMOTION_CRITERIA) emotion (criteria_at "neutral").

(** A row lies within every range of the criteria. *)
Definition matches (criteria : Criteria) (r : Row) : bool :=
  forallb (fun c => between (column c.1 r) c.2.1 c.2.2) criteria.

(** Valence and energy are both present and within the inclusive
    ranges [vlo, vhi] and [elo, ehi]. *)
Definition both_within (vlo vhi elo ehi : Q) (r : Row) : bool :=
  match valence r, energy r with
  | Some v, Some e =>
      Qle_bool vlo v && Qle_bool v vhi && Qle_bool elo e && Qle_bool e ehi
  | _, _ => false
  end.

(** The returned mapping [s] is the entry [r]: each of its fields is the
    cell of [r]. *)
Definition is_song_of (r : Row) (s : Song) : Prop :=
  song_id s = track_id r
  /\ song_title s = title r
  /\ song_artist s = artist r
  /\ song_album s = album r
  /\ song_image_url s = image_url r
  /\ song_preview_url s = preview_url r
  /\ song_url s = url r
  /\ song_valence s = valence r
  /\ song_energy s = energy r
  /\ Some (song_duration_ms s) = duration_ms r.

(** The frame [recommend_by_emotion] samples from when it is not empty:
    the rows kept by the criteria loop, minus the excluded track. *)
Definition candidates (df : DataFrame) (emotion : string)
    (current_song_id : option string) : DataFrame :=
  let filtered_df := apply_criteria (criteria_for emotion) df in
  if truthy current_song_id
  then List.filter
         (fun r => negb (bool_decide (Some (track_id r) = current_song_id)))
         filtered_df
  else filtered_df.

(** *** Order of the binary64 floats *)

(** A key for the floats that are not NaN: class, then exponent, then
    mantissa, negated for the negative ones.  The comparison of floats is
    the lexicographic comparison of the keys. *)
Definition sf_key (x : spec_float) : option (Z * Z * Z) :=
  match x with
  | S754_nan => None
  | S754_infinity true => Some (-2, 0, 0)%Z
  | S754_finite true m e => Some (-1, - e, Zneg m)%Z
  | S754_zero _ => Some (0, 0, 0)%Z
  | S754_finite false m e => Some (1, e, Zpos m)%Z
  | S754_infinity false => Some (2, 0, 0)%Z
  end.

Definition lex (a b : Z * Z * Z) : comparison :=
  match (a.1.1 ?= b.1.1)%Z with
  | Eq => match (a.1.2 ?= b.1.2)%Z with
          | Eq => (a.2 ?= b.2)%Z
          | c => c
          end
  | c => c
  end.

(** The key of a float. *)
Definition key_of (x : float) : option (Z * Z * Z) := sf_key (Prim2SF x).

(** A float that is not NaN. *)
Definition comparable (x : float) : Prop := is_Some (key_of x).

(** The comparison of two floats, when neither is NaN. *)
Definition fcmp (x y : float) : option comparison :=
  match key_of x, key_of y with
  | Some a, Some b => Some (lex a b)
  | _, _ => None
  end.

(** *** Vocabulary of the binary64 statements *)

(** The key list and the store of a dictionary agree. *)
Definition odict64_ok (d : Py64.odict) : Prop :=
  forall k, k ∈ Py64.keys d <-> is_Some (Py64.store d !! k).

(** A detector result that the fusion can use: present and holding
    [probabilities]. *)
Definition usable64 (r : option Modality64.result) : Prop :=
  is_Some (r ≫= Modality64.probabilities).

(** The weight [late_fusion] looks up for a modality: the caller's entry,
    or the default written at the call of [weights.get]. *)
Definition weight_of64 (weights : option (gmap string float)) (name : string)
    (dflt : float) : float :=
  Py.get (default EmotionFusion64.default_weights weights) name dflt.

(** One modality's contribution [x], when its result is usable. *)
Definition used {A} (r : option Modality64.result) (x : A) : list A :=
  match r ≫= Modality64.probabilities with
  | Some _ => [x]
  | None => []
  end.

(** Names, probability vectors and weights of the usable modalities, in
    the order face, speech, text. *)
Definition used_names64 (f s t : option Modality64.result) : list string :=
  used f "face" ++ used s "speech" ++ used t "text".

Definition used_probs64 (f s t : option Modality64.result)
  : list (gmap string float) :=
  omap (fun r => r ≫= Modality64.probabilities) [f; s; t].

Definition used_weights64 (f s t : option Modality64.result)
    (w : option (gmap string float)) : list float :=
  used f (weight_of64 w "face" 0.4%float)
  ++ used s (weight_of64 w "speech" 0.3%float)
  ++ used t (weight_of64 w "text" 0.3%float).

(** The weights divided by their total. *)
Definition normalized64 (ws : list float) : list float :=
  map (fun x => (x / Py64.sum ws)%float) ws.

(** The weighted sum for one label: the products probability times weight
    added from the left, in the order of the modalities, starting from
    [0.0]. *)
Definition fused_at64 (probs : list (gmap string float)) (ws : list float)
    (e : string) : float :=
  foldl (fun acc pw => (acc + Py.get pw.1 e 0 * pw.2)%float) 0%float
        (zip probs ws).

(** The label [e] has the greatest value of the distribution [d]: every
    canonical label's value is at most that of [e]. *)
Definition is_maximum64 (d : Py64.odict) (e : string) : Prop :=
  Forall (fun e' => (Py64.value d e' <=? Py64.value d e)%float = true)
         EmotionFusion64.CANONICAL_EMOTIONS.

(** No value of the distribution [d] is NaN. *)
Definition no_nan64 (d : Py64.odict) : Prop :=
  Forall (fun e => comparable (Py64.value d e))
         EmotionFusion64.CANONICAL_EMOTIONS.

(** The float [a] is [b], or is [0.0] where [b] is [-0.0]. *)
Definition same_float (a b : float) : Prop :=
  a = b \/ (a = 0%float /\ b = (-0)%float).

(** The result reproduces the vector [p] of the one modality [name]: the
    canonical labels are its keys, each fused probability is the entry of
    [p] ([0.0] for a label [p] lacks), the modality is the only one used,
    and its weight is [1.0]. *)
Definition reproduces64 (name : string) (p : gmap string float)
    (r : EmotionFusion64.FusionResult) : Prop :=
  Py64.keys (EmotionFusion64.probabilities r)
  = ["happy"; "sad"; "angry"; "calm"; "neutral"; "excited"]
  /\ (forall e, same_float (Py64.value (EmotionFusion64.probabilities r) e)
                           (Py.get p e 0%float))
  /\ EmotionFusion64.modalities_used r = [name]
  /\ EmotionFusion64.weights r = {[ name := 1%float ]}.

(** *** Vocabulary of the speech rules and of the feature estimation *)

(** A decision procedure for the shape of the speech detector's outcome:
    it returned, with the canonical keys, no negative entry, a total
    within 1e-15 of 1, the confidence of the reported label, a confidence
    of at least [floor], and the label [label]. *)
Definition prediction_check (label : string) (floor : float)
    (o : Py.outcome SpeechEmotionDetector.prediction) : bool :=
  match o with
  | Py.Return r =>
      let probs := SpeechEmotionDetector.probabilities r in
      bool_decide (Py64.keys probs
                   = ["happy"; "sad"; "angry"; "calm"; "neutral"; "excited"])
      && forallb (fun e => (0 <=? Py64.value probs e)%float)
                 ["happy"; "sad"; "angry"; "calm"; "neutral"; "excited"]
      && (abs (Py64.sum (PyMore.values probs) - 1) <=? 1e-15)%float
      && (SpeechEmotionDetector.confidence r
          =? Py64.value probs (SpeechEmotionDetector.emotion r))%float
      && (floor <=? SpeechEmotionDetector.confidence r)%float
      && String.eqb (SpeechEmotionDetector.emotion r) label
  | Py.Raise _ => false
  end.

(** The label of the first energy/tempo rule of [predict_from_features]
    that applies. *)
Definition speech_rule_label (energy tempo : float) : string :=
  if (0.05 <? energy)%float && (120 <? tempo)%float then "excited"
  else if (energy <? 0.03)%float && (tempo <? 100)%float then "sad"
  else if (0.04 <? energy)%float
          && ((100 <=? tempo)%float && (tempo <=? 130)%float)
  then "happy"
  else if (energy <? 0.04)%float
          && ((90 <=? tempo)%float && (tempo <=? 120)%float)
  then "calm"
  else "neutral".

(** Both estimates are present and within [0, 1]. *)
Definition estimates_in_unit (m : gmap string float) : Prop :=
  exists v e,
    m = {[ "valence" := v; "energy" := e ]}
    /\ (0 <=? v)%float = true /\ (v <=? 1)%float = true
    /\ (0 <=? e)%float = true /\ (e <=? 1)%float = true.

(** * Properties *)

(** ** Facts about [late_fusion] over the rationals *)

Section FusionBody.

Lemma collect_all_shape f s t w :
  let c := collect_all f s t w in
  length (modality_probs c) = length (available_modalities c)
  /\ length (modality_weights c) = length (available_modalities c)
  /\ NoDup (available_modalities c)
  /\ (available_modalities c = [] <-> ~ usable f /\ ~ usable s /\ ~ usable t).
Proof.
  unfold collect_all, collect, usable.
  destruct (f ≫= Modality.probabilities) as [pf|];
    destruct (s ≫= Modality.probabilities) as [ps|];
    destruct (t ≫= Modality.probabilities) as [pt|];
    cbn [available_modalities modality_probs modality_weights app length];
    (split; [done|]); (split; [done|]); (split; [compute_done|]).
  all: split; [try done|].
  all: try (intros (H1 & H2 & H3); exfalso;
            first [apply H1; by eexists | apply H2; by eexists
                  | apply H3; by eexists]).
  intros _. repeat split; by intros [? ?].
Qed.

Lemma late_fusion_try_raises_value f s t w :
  ~ usable f -> ~ usable s -> ~ usable t ->
  late_fusion_try f s t w
  = Py.Raise (Py.ValueError "No valid modality results provided").
Proof.
  intros Hf Hs Ht. unfold late_fusion_try.
  assert (Hnil : available_modalities (collect_all f s t w) = [])
    by by apply collect_all_shape.
  by rewrite Hnil.
Qed.

End FusionBody.

(** ** Comparison of binary64 floats *)

Section FloatOrder.

Lemma SFcompare_key (x y : spec_float) :
  SFcompare x y
  = match sf_key x, sf_key y with
    | Some a, Some b => Some (lex a b)
    | _, _ => None
    end.
Proof.
  destruct x as [[]|[]| |[] m1 e1], y as [[]|[]| |[] m2 e2]; try reflexivity;
    unfold lex; simpl.
  rewrite Z.compare_opp, (Z.compare_antisym e1 e2).
  by destruct (e1 ?= e2)%Z.
Qed.

Lemma lex_lt_iff (a b : Z * Z * Z) :
  lex a b = Lt
  <-> (a.1.1 < b.1.1
       \/ (a.1.1 = b.1.1 /\ (a.1.2 < b.1.2 \/ (a.1.2 = b.1.2 /\ a.2 < b.2))))%Z.
Proof.
  unfold lex.
  destruct (Z.compare_spec a.1.1 b.1.1), (Z.compare_spec a.1.2 b.1.2),
    (Z.compare_spec a.2 b.2); split; try discriminate; try lia; done.
Qed.

Lemma lex_eq_iff (a b : Z * Z * Z) :
  lex a b = Eq <-> (a.1.1 = b.1.1 /\ a.1.2 = b.1.2 /\ a.2 = b.2)%Z.
Proof.
  unfold lex.
  destruct (Z.compare_spec a.1.1 b.1.1), (Z.compare_spec a.1.2 b.1.2),
    (Z.compare_spec a.2 b.2); split; try discriminate; try lia; done.
Qed.

Lemma lex_gt_iff (a b : Z * Z * Z) : lex a b = Gt <-> lex b a = Lt.
Proof.
  rewrite lex_lt_iff. unfold lex.
  destruct (Z.compare_spec a.1.1 b.1.1), (Z.compare_spec a.1.2 b.1.2),
    (Z.compare_spec a.2 b.2); split; try discriminate; try lia; done.
Qed.

Lemma lex_lt_trans (a b c : Z * Z * Z) :
  lex a b = Lt -> lex b c = Lt -> lex a c = Lt.
Proof. rewrite !lex_lt_iff. lia. Qed.

Lemma lex_not_lt_lt (b y x : Z * Z * Z) :
  lex b y <> Lt -> lex b x = Lt -> lex y x = Lt.
Proof. rewrite !lex_lt_iff. lia. Qed.

Lemma lex_lt_gt (a b : Z * Z * Z) : lex a b = Lt -> lex b a = Gt.
Proof. intros H. by apply lex_gt_iff. Qed.

Lemma lex_refl (a : Z * Z * Z) : lex a a = Eq.
Proof. by apply lex_eq_iff. Qed.

Lemma lex_not_lt_not_gt (a b : Z * Z * Z) : lex a b <> Lt -> lex b a <> Gt.
Proof. intros H1 H2. by apply lex_gt_iff in H2. Qed.

Lemma ltb_fcmp (x y : float) :
  (x <? y)%float = match fcmp x y with Some Lt => true | _ => false end.
Proof. rewrite FloatAxioms.ltb_spec. unfold SFltb, fcmp, key_of. by rewrite SFcompare_key. Qed.

Lemma leb_fcmp (x y : float) :
  (x <=? y)%float = match fcmp x y with Some (Lt | Eq) => true | _ => false end.
Proof. rewrite FloatAxioms.leb_spec. unfold SFleb, fcmp, key_of. by rewrite SFcompare_key. Qed.

Lemma eqb_fcmp (x y : float) :
  (x =? y)%float = match fcmp x y with Some Eq => true | _ => false end.
Proof. rewrite FloatAxioms.eqb_spec. unfold SFeqb, fcmp, key_of. by rewrite SFcompare_key. Qed.

Lemma ltb_trans (x y z : float) :
  (x <? y)%float = true -> (y <? z)%float = true -> (x <? z)%float = true.
Proof.
  rewrite !ltb_fcmp. unfold fcmp.
  destruct (key_of x) as [a|], (key_of y) as [b|], (key_of z) as [c|];
    try discriminate.
  destruct (lex a b) eqn:H1; try discriminate.
  destruct (lex b c) eqn:H2; try discriminate.
  by rewrite (lex_lt_trans a b c).
Qed.

Lemma not_ltb_ltb_trans (b y x : float) :
  comparable y ->
  (b <? y)%float = false -> (b <? x)%float = true -> (y <? x)%float = true.
Proof.
  rewrite !ltb_fcmp. unfold fcmp, comparable.
  destruct (key_of b) as [kb|], (key_of y) as [ky|], (key_of x) as [kx|];
    try discriminate; try (by intros [? ?]).
  intros _ H1 H2.
  destruct (lex kb kx) eqn:E2; try discriminate.
  rewrite (lex_not_lt_lt kb ky kx); [done| |done].
  intros E1. by rewrite E1 in H1.
Qed.

Lemma ltb_not_leb (x y : float) :
  (x <? y)%float = true -> (y <=? x)%float = false.
Proof.
  rewrite ltb_fcmp, leb_fcmp. unfold fcmp.
  destruct (key_of x) as [a|], (key_of y) as [b|]; try discriminate.
  destruct (lex a b) eqn:H; try discriminate. intros _.
  by rewrite (lex_lt_gt a b).
Qed.

Lemma leb_comparable (x y : float) :
  (x <=? y)%float = true -> comparable x /\ comparable y.
Proof.
  rewrite leb_fcmp. unfold fcmp, comparable.
  destruct (key_of x) as [a|], (key_of y) as [b|]; try discriminate.
  by split; eexists.
Qed.

Lemma leb_not_ltb_eqb (x y : float) :
  (x <=? y)%float = true -> (x <? y)%float = false -> (x =? y)%float = true.
Proof.
  rewrite leb_fcmp, ltb_fcmp, eqb_fcmp.
  by destruct (fcmp x y) as [[]|].
Qed.

Lemma eqb_refl_comparable (x : float) :
  comparable x -> (x =? x)%float = true.
Proof.
  rewrite eqb_fcmp. unfold fcmp, comparable.
  destruct (key_of x) as [a|]; [|by intros [? ?]].
  by rewrite lex_refl.
Qed.

Lemma ltb_leb (x y : float) :
  (x <? y)%float = true -> (x <=? y)%float = true.
Proof.
  rewrite leb_fcmp, ltb_fcmp. by destruct (fcmp x y) as [[]|].
Qed.

Lemma not_ltb_leb (x y : float) :
  comparable x -> comparable y ->
  (x <? y)%float = false -> (y <=? x)%float = true.
Proof.
  rewrite leb_fcmp, ltb_fcmp. unfold fcmp, comparable.
  destruct (key_of x) as [a|], (key_of y) as [b|];
    try (by intros [? ?]); try (by intros _ [? ?]).
  intros _ _ H.
  assert (Hn : lex b a <> Gt).
  { apply lex_not_lt_not_gt. intros E. by rewrite E in H. }
  by destruct (lex b a).
Qed.

End FloatOrder.

(** ** Exact operations on binary64 floats *)

Section FloatExact.

Local Open Scope Z_scope.

Lemma valid_finite s m e :
  valid_binary (S754_finite s m e) = true ->
  fexp prec emax (Z.pos (digits2_pos m) + e) = e /\ e <= emax - prec.
Proof.
  unfold valid_binary, SpecFloat.valid_binary, bounded, canonical_mantissa.
  intros [H1 H2]%andb_prop. split; [by apply Z.eqb_eq|by apply Z.leb_le].
Qed.

Lemma mul_one_r (p : float) : (p * 1)%float = p.
Proof.
  apply FloatAxioms.Prim2SF_inj. rewrite FloatAxioms.mul_spec.
  change (Prim2SF 1) with (S754_finite false 4503599627370496 (-52)).
  pose proof (FloatAxioms.Prim2SF_valid p) as Hv.
  destruct (Prim2SF p) as [[]|[]| |s m e]; try reflexivity.
  apply valid_finite in Hv as [Hc He].
  unfold SF64mul, SFmul.
  rewrite Pos.mul_comm.
  assert (Hd : Zdigits2 (Z.pos (4503599627370496 * m))
               = Z.pos (digits2_pos m) + 52).
  { cbv [Pos.mul SpecFloat.Zdigits2 SpecFloat.digits2_pos]. lia. }
  unfold binary_round_aux, shr_fexp. rewrite Hd.
  replace (Z.pos (digits2_pos m) + 52 + (e + -52)) with (Z.pos (digits2_pos m) + e)
    by lia.
  rewrite Hc. replace (e - (e + -52)) with 52 by lia.
  cbv [Pos.mul SpecFloat.shr SpecFloat.shr_record_of_loc SpecFloat.iter_pos
       SpecFloat.shr_1 orb].
  cbv [SpecFloat.shr_m SpecFloat.loc_of_shr_record
       SpecFloat.round_nearest_even SpecFloat.Zdigits2].
  replace (e + -52 + 52) with e by lia.
  rewrite Hc, Z.sub_diag.
  cbv [SpecFloat.shr SpecFloat.shr_record_of_loc SpecFloat.shr_m].
  apply Z.leb_le in He. rewrite He. by destruct s.
Qed.

Lemma div_eucl_mul (b : positive) (k : Z) :
  Z.div_eucl (Z.pos b * k) (Z.pos b) = (k, 0).
Proof.
  pose proof (Z.div_mul k (Z.pos b) ltac:(lia)) as Hq.
  pose proof (Z.mod_mul k (Z.pos b) ltac:(lia)) as Hr.
  rewrite (Z.mul_comm k) in Hq, Hr.
  unfold Z.div, Z.modulo in Hq, Hr.
  destruct (Z.div_eucl (Z.pos b * k) (Z.pos b)) as [q r].
  simpl in Hq, Hr. by subst.
Qed.

Lemma div_self (x : float) s m e :
  Prim2SF x = S754_finite s m e -> (x / x)%float = 1%float.
Proof.
  intros Hx. apply FloatAxioms.Prim2SF_inj. rewrite FloatAxioms.div_spec, Hx.
  change (Prim2SF 1) with (S754_finite false 4503599627370496 (-52)).
  unfold SF64div, SFdiv, SFdiv_core_binary.
  rewrite !Z.sub_diag.
  change (Z.min (fexp prec emax 0) 0) with (-53).
  change (0 - -53) with 53.
  assert (Hm : Z.shiftl (Z.pos m) 53 = Z.pos m * 9007199254740992).
  { rewrite Z.shiftl_mul_pow2 by lia. reflexivity. }
  rewrite Hm, div_eucl_mul.
  assert (Hl : new_location (Z.pos m) 0 = loc_Exact).
  { unfold new_location. by destruct (Z.even (Z.pos m)). }
  rewrite Hl. by destruct s.
Qed.

Lemma add_zero_l (p : float) :
  (0 + p)%float = p \/ (p = (-0)%float /\ (0 + p)%float = 0%float).
Proof.
  destruct (Prim2SF p) as [[]|[]| |s m e] eqn:Hp.
  - right. split.
    + apply FloatAxioms.Prim2SF_inj. by rewrite Hp.
    + apply FloatAxioms.Prim2SF_inj. by rewrite FloatAxioms.add_spec, Hp.
  - left. apply FloatAxioms.Prim2SF_inj. by rewrite FloatAxioms.add_spec, Hp.
  - left. apply FloatAxioms.Prim2SF_inj. by rewrite FloatAxioms.add_spec, Hp.
  - left. apply FloatAxioms.Prim2SF_inj. by rewrite FloatAxioms.add_spec, Hp.
  - left. apply FloatAxioms.Prim2SF_inj. by rewrite FloatAxioms.add_spec, Hp.
  - left. apply FloatAxioms.Prim2SF_inj. by rewrite FloatAxioms.add_spec, Hp.
Qed.

(** A positive finite float. *)
Lemma positive_finite (x : float) :
  (0 <? x)%float = true -> (x <? infinity)%float = true ->
  exists m e, Prim2SF x = S754_finite false m e.
Proof.
  rewrite !FloatAxioms.ltb_spec.
  change (Prim2SF 0) with (S754_zero false).
  change (Prim2SF infinity) with (S754_infinity false).
  destruct (Prim2SF x) as [[]|[]| |[] m e]; try discriminate; eauto.
Qed.

End FloatExact.

(** ** Insertion-ordered dictionaries of floats *)

Section Dict64.

Lemma empty64_ok : odict64_ok Py64.empty.
Proof.
  intros k. simpl. rewrite lookup_empty. split.
  - by intros ?%elem_of_nil.
  - by intros [? ?].
Qed.

Lemma setitem64_ok d k v : odict64_ok d -> odict64_ok (Py64.setitem d k v).
Proof.
  intros Hd e. unfold Py64.setitem. simpl.
  destruct (decide (e = k)) as [->|Hne].
  - rewrite lookup_insert_eq. split; [eauto|intros _].
    case_decide; [done|]. apply elem_of_app. right. by left.
  - rewrite lookup_insert_ne by done. rewrite <- (Hd e).
    case_decide; [done|]. rewrite elem_of_app, list_elem_of_singleton.
    split; [by intros [?|?]|by left].
Qed.

Lemma comprehension64_ok f l : odict64_ok (Py64.comprehension f l).
Proof.
  unfold Py64.comprehension. generalize empty64_ok. generalize Py64.empty.
  induction l as [|x l IH]; intros d Hd; simpl; [done|].
  apply IH. by apply setitem64_ok.
Qed.

Lemma iadd64_ok d k v : odict64_ok d -> odict64_ok (Py64.iadd d k v).
Proof.
  intros Hd. unfold Py64.iadd. destruct (Py64.store d !! k); [|done].
  by apply setitem64_ok.
Qed.

Lemma iadd64_keys d k v :
  odict64_ok d -> Py64.keys (Py64.iadd d k v) = Py64.keys d.
Proof.
  intros Hd. unfold Py64.iadd.
  destruct (Py64.store d !! k) as [old|] eqn:Hk; [|done].
  simpl. case_decide as Hin; [done|].
  exfalso. apply Hin, Hd. eauto.
Qed.

Lemma iadd64_value_eq d k v :
  odict64_ok d -> k ∈ Py64.keys d ->
  Py64.value (Py64.iadd d k v) k = (Py64.value d k + v)%float.
Proof.
  intros Hd Hin. apply Hd in Hin as [old Hold].
  unfold Py64.iadd, Py64.value, Py.get. rewrite Hold. simpl.
  by rewrite lookup_insert_eq.
Qed.

Lemma iadd64_value_ne d k v e :
  e <> k -> Py64.value (Py64.iadd d k v) e = Py64.value d e.
Proof.
  intros Hne. unfold Py64.iadd, Py64.value, Py.get.
  destruct (Py64.store d !! k); [|done].
  simpl. by rewrite lookup_insert_ne.
Qed.

(** A loop of [d[k] += g(k)] over distinct, present keys. *)
Lemma foldl_iadd64 (g : string -> float) (l : list string) (d : Py64.odict) :
  odict64_ok d -> NoDup l -> (forall k, k ∈ l -> k ∈ Py64.keys d) ->
  let d' := foldl (fun d k => Py64.iadd d k (g k)) d l in
  odict64_ok d' /\ Py64.keys d' = Py64.keys d /\
  forall e, Py64.value d' e
            = if decide (e ∈ l) then (Py64.value d e + g e)%float
              else Py64.value d e.
Proof.
  revert d. induction l as [|x l IH]; intros d Hd Hnd Hin; simpl.
  - split; [done|]. split; [done|]. intros e.
    destruct (decide (e ∈ [])) as [H|H]; [|done].
    by apply elem_of_nil in H.
  - apply NoDup_cons in Hnd as [Hx Hnd].
    destruct (IH (Py64.iadd d x (g x))) as (Hok & Hkeys & Hval).
    + by apply iadd64_ok.
    + done.
    + intros k Hk. rewrite iadd64_keys by done. apply Hin. by right.
    + split; [done|]. split; [by rewrite Hkeys, iadd64_keys|].
      intros e. rewrite Hval.
      destruct (decide (e = x)) as [->|Hne].
      * rewrite decide_False by done.
        rewrite decide_True by left.
        apply iadd64_value_eq; [done|]. apply Hin. left.
      * rewrite iadd64_value_ne by done.
        destruct (decide (e ∈ l)) as [Hel|Hel].
        -- rewrite decide_True; [done|by right].
        -- rewrite decide_False; [done|].
           intros [?|?]%elem_of_cons; done.
Qed.

Lemma comprehension64_const_value (c : float) (l : list string) (e : string) :
  e ∈ l -> Py64.value (Py64.comprehension (fun _ => c) l) e = c.
Proof.
  unfold Py64.comprehension. intros Hin.
  assert (H : e ∈ l \/ Py64.value Py64.empty e = c) by (by left).
  clear Hin. revert H. generalize Py64.empty.
  induction l as [|x l IH]; intros d Hd; simpl.
  - destruct Hd as [Hd|Hd]; [by apply elem_of_nil in Hd|done].
  - apply IH. unfold Py64.value, Py.get, Py64.setitem. simpl.
    destruct (decide (e = x)) as [->|Hne].
    + right. by rewrite lookup_insert_eq.
    + rewrite lookup_insert_ne by done.
      destruct Hd as [Hd|Hd]; [|by right].
      apply elem_of_cons in Hd as [?|?]; [done|by left].
Qed.

End Dict64.

(** ** The scan of [max] over floats *)

Section Scan64.

Variable key : string -> float.

Lemma max_from64_in (rest : list string) (best : string) :
  Py64.max_from key best rest ∈ best :: rest.
Proof.
  revert best. induction rest as [|x rest IH]; intros best; simpl; [by left|].
  destruct (key best <? key x)%float.
  - right. apply IH.
  - specialize (IH best). apply elem_of_cons in IH as [->|?]; [by left|].
    right. by right.
Qed.

(** Invariant of the scan, on keys that are not NaN: the items seen so
    far split around the running maximum, strictly smaller keys before
    it, no greater key after it. *)
Lemma max_from64_scan (rest pre post : list string) (best : string) :
  Forall (fun x => comparable (key x)) (pre ++ best :: post ++ rest) ->
  Forall (fun x => (key x <? key best)%float = true) pre ->
  Forall (fun x => (key best <? key x)%float = false) post ->
  exists pre' post',
    pre ++ best :: post ++ rest = pre' ++ Py64.max_from key best rest :: post'
    /\ Forall (fun x => (key x <? key (Py64.max_from key best rest))%float = true)
              pre'
    /\ Forall (fun x => (key (Py64.max_from key best rest) <? key x)%float = false)
              post'.
Proof.
  revert pre post best.
  induction rest as [|x rest IH]; intros pre post best Hall Hpre Hpost; simpl.
  - exists pre, post. by rewrite app_nil_r.
  - destruct (key best <? key x)%float eqn:Hlt.
    + destruct (IH (pre ++ best :: post) [] x) as (pre' & post' & Heq & H1 & H2).
      * simpl. rewrite <- app_assoc. simpl. exact Hall.
      * apply Forall_app. split; [|apply Forall_cons; split]; [|done|].
        -- eapply Forall_impl; [exact Hpre|]. intros y Hy. simpl in Hy.
           by apply (ltb_trans _ (key best)).
        -- apply Forall_forall. intros y Hy.
           apply (not_ltb_ltb_trans (key best));
             [|by eapply Forall_forall in Hpost|done].
           rewrite Forall_forall in Hall. apply Hall.
           apply elem_of_app. right. right. apply elem_of_app. by left.
      * constructor.
      * exists pre', post'. split; [|done].
        rewrite <- Heq. simpl. by rewrite <- app_assoc.
    + destruct (IH pre (post ++ [x]) best) as (pre' & post' & Heq & H1 & H2).
      * by rewrite <- app_assoc.
      * done.
      * apply Forall_app. split; [done|]. by apply Forall_singleton.
      * exists pre', post'. split; [|done].
        rewrite <- Heq. by rewrite <- app_assoc.
Qed.

Lemma max_from64_first (best : string) (rest : list string) :
  Forall (fun x => comparable (key x)) (best :: rest) ->
  exists pre post,
    best :: rest = pre ++ Py64.max_from key best rest :: post
    /\ Forall (fun x => (key x <? key (Py64.max_from key best rest))%float = true)
              pre
    /\ Forall (fun x => (key (Py64.max_from key best rest) <? key x)%float = false)
              post.
Proof.
  intros Hall.
  destruct (max_from64_scan rest [] [] best) as (pre & post & Heq & H);
    [exact Hall|constructor..|].
  exists pre, post. split; [exact Heq|exact H].
Qed.

End Scan64.

(** ** Facts about [late_fusion] over binary64 *)

Section Fusion64.

Lemma canonical64_nodup : NoDup EmotionFusion64.CANONICAL_EMOTIONS.
Proof. compute_done. Qed.

Lemma accumulate64_spec (d : Py64.odict) (pw : gmap string float * float) :
  odict64_ok d -> Py64.keys d = EmotionFusion64.CANONICAL_EMOTIONS ->
  odict64_ok (EmotionFusion64.accumulate d pw)
  /\ Py64.keys (EmotionFusion64.accumulate d pw)
     = EmotionFusion64.CANONICAL_EMOTIONS
  /\ forall e, e ∈ EmotionFusion64.CANONICAL_EMOTIONS ->
       Py64.value (EmotionFusion64.accumulate d pw) e
       = (Py64.value d e + Py.get pw.1 e 0 * pw.2)%float.
Proof.
  intros Hok Hkeys. unfold EmotionFusion64.accumulate.
  destruct (foldl_iadd64 (fun e => (Py.get pw.1 e 0 * pw.2)%float)
              EmotionFusion64.CANONICAL_EMOTIONS d)
    as (H1 & H2 & H3); [done|apply canonical64_nodup|by rewrite Hkeys|].
  split; [done|]. split; [by rewrite H2|].
  intros e He. rewrite H3. by rewrite decide_True.
Qed.

Lemma foldl_accumulate64_spec (l : list (gmap string float * float))
    (d : Py64.odict) :
  odict64_ok d -> Py64.keys d = EmotionFusion64.CANONICAL_EMOTIONS ->
  odict64_ok (foldl EmotionFusion64.accumulate d l)
  /\ Py64.keys (foldl EmotionFusion64.accumulate d l)
     = EmotionFusion64.CANONICAL_EMOTIONS
  /\ forall e, e ∈ EmotionFusion64.CANONICAL_EMOTIONS ->
       Py64.value (foldl EmotionFusion64.accumulate d l) e
       = foldl (fun acc pw => (acc + Py.get pw.1 e 0 * pw.2)%float)
               (Py64.value d e) l.
Proof.
  revert d. induction l as [|pw l IH]; intros d Hok Hkeys; simpl; [done|].
  destruct (accumulate64_spec d pw Hok Hkeys) as (H1 & H2 & H3).
  destruct (IH _ H1 H2) as (H4 & H5 & H6).
  split; [done|]. split; [done|]. intros e He. by rewrite H6, H3.
Qed.

(** The two nested loops: the keys of the fused distribution are the
    canonical labels in their order, and each entry is the weighted sum
    for its label. *)
Lemma weighted_average64_spec (probs : list (gmap string float))
    (ws : list float) :
  Py64.keys (EmotionFusion64.weighted_average probs ws)
  = EmotionFusion64.CANONICAL_EMOTIONS
  /\ forall e, e ∈ EmotionFusion64.CANONICAL_EMOTIONS ->
       Py64.value (EmotionFusion64.weighted_average probs ws) e
       = fused_at64 probs ws e.
Proof.
  unfold EmotionFusion64.weighted_average, fused_at64.
  destruct (foldl_accumulate64_spec (zip probs ws)
              (Py64.comprehension (fun _ => 0%float)
                 EmotionFusion64.CANONICAL_EMOTIONS))
    as (_ & H2 & H3); [apply comprehension64_ok|done|].
  split; [done|]. intros e He.
  rewrite H3 by done. by rewrite comprehension64_const_value.
Qed.

Lemma weighted_average64_ok probs ws :
  odict64_ok (EmotionFusion64.weighted_average probs ws).
Proof.
  unfold EmotionFusion64.weighted_average.
  destruct (foldl_accumulate64_spec (zip probs ws)
              (Py64.comprehension (fun _ => 0%float)
                 EmotionFusion64.CANONICAL_EMOTIONS))
    as (H & _); [apply comprehension64_ok|done|done].
Qed.

Lemma mapM_truediv64_ok (ws : list float) (total : float) :
  (total =? 0)%float = false ->
  Py.mapM (fun w => Py64.truediv w total) ws
  = Py.Return (map (fun w => (w / total)%float) ws).
Proof.
  intros Hne. induction ws as [|w ws IH]; simpl; [done|].
  unfold Py64.truediv at 1. rewrite Hne. simpl. by rewrite IH.
Qed.

(** What the three [if] statements collect, in terms of the arguments. *)
Lemma collect_all64_spec f s t w :
  EmotionFusion64.collect_all f s t w
  = {| EmotionFusion64.available_modalities := used_names64 f s t;
       EmotionFusion64.modality_probs := used_probs64 f s t;
       EmotionFusion64.modality_weights := used_weights64 f s t w |}.
Proof.
  unfold EmotionFusion64.collect_all, EmotionFusion64.collect, used_names64,
    used_probs64, used_weights64, used, weight_of64.
  simpl.
  by destruct (f ≫= Modality64.probabilities),
    (s ≫= Modality64.probabilities), (t ≫= Modality64.probabilities).
Qed.

Lemma used_names64_nonempty f s t :
  usable64 f \/ usable64 s \/ usable64 t -> used_names64 f s t <> [].
Proof.
  unfold usable64, used_names64, used.
  intros [[? ->]|[[? ->]|[? ->]]];
    destruct (f ≫= Modality64.probabilities),
      (s ≫= Modality64.probabilities), (t ≫= Modality64.probabilities);
    done.
Qed.

Lemma used_weights64_nonempty f s t w :
  usable64 f \/ usable64 s \/ usable64 t -> used_weights64 f s t w <> [].
Proof.
  unfold usable64, used_weights64, used.
  intros [[? ->]|[[? ->]|[? ->]]];
    destruct (f ≫= Modality64.probabilities),
      (s ≫= Modality64.probabilities), (t ≫= Modality64.probabilities);
    done.
Qed.

(** The body of [late_fusion] when a modality is usable and the total
    weight is not zero: nothing raises, and the result is built from the
    arguments as follows. *)
Lemma late_fusion64_computes f s t w :
  usable64 f \/ usable64 s \/ usable64 t ->
  (Py64.sum (used_weights64 f s t w) =? 0)%float = false ->
  let fused :=
    EmotionFusion64.weighted_average (used_probs64 f s t)
      (normalized64 (used_weights64 f s t w)) in
  let top :=
    Py64.max_from (Py64.value fused) "happy"
      ["sad"; "angry"; "calm"; "neutral"; "excited"] in
  EmotionFusion64.late_fusion f s t w
  = Py.Return
      {| EmotionFusion64.emotion_fused := top;
         EmotionFusion64.confidence := Py64.value fused top;
         EmotionFusion64.probabilities := fused;
         EmotionFusion64.modalities_used := used_names64 f s t;
         EmotionFusion64.weights :=
           list_to_map (zip (used_names64 f s t)
                            (normalized64 (used_weights64 f s t w))) |}.
Proof.
  intros Hu Hsum fused top.
  unfold EmotionFusion64.late_fusion, EmotionFusion64.late_fusion_try.
  rewrite collect_all64_spec.
  cbn [EmotionFusion64.available_modalities EmotionFusion64.modality_probs
       EmotionFusion64.modality_weights].
  destruct (used_names64 f s t) as [|m ms] eqn:Hm;
    [by apply used_names64_nonempty in Hu|].
  cbn [length Nat.eqb].
  rewrite mapM_truediv64_ok by done.
  unfold mbind, outcome_bind, Py.bind.
  fold (normalized64 (used_weights64 f s t w)). fold fused.
  destruct (weighted_average64_spec (used_probs64 f s t)
              (normalized64 (used_weights64 f s t w))) as [Hk _].
  fold fused in Hk. rewrite Hk. reflexivity.
Qed.

(** A float equal to zero is [0.0] or [-0.0]. *)
Lemma eqb_zero_cases (x : float) :
  (x =? 0)%float = true -> x = 0%float \/ x = (-0)%float.
Proof.
  rewrite FloatAxioms.eqb_spec.
  change (Prim2SF 0) with (S754_zero false). intros H.
  rewrite <- (FloatAxioms.SF2Prim_Prim2SF x).
  destruct (Prim2SF x) as [[]|[]| |[] m e]; try discriminate H;
    [right|left]; reflexivity.
Qed.

Lemma sum64_zeros (ws : list float) :
  (length ws <= 3)%nat ->
  Forall (fun x => (x =? 0)%float = true) ws ->
  (Py64.sum ws =? 0)%float = true.
Proof.
  intros Hlen Hz.
  destruct ws as [|a [|b [|c [|d ws]]]]; [reflexivity| | | |simpl in Hlen; lia].
  all: repeat match goal with
         | H : Forall _ (_ :: _) |- _ => apply Forall_cons in H as [?%eqb_zero_cases H]
         end.
  all: repeat match goal with H : _ \/ _ |- _ => destruct H as [->| ->] end.
  all: reflexivity.
Qed.

Lemma late_fusion64_try_raises_zero f s t w :
  usable64 f \/ usable64 s \/ usable64 t ->
  (Py64.sum (used_weights64 f s t w) =? 0)%float = true ->
  EmotionFusion64.late_fusion_try f s t w = Py.Raise Py.ZeroDivisionError.
Proof.
  intros Hu Hsum. unfold EmotionFusion64.late_fusion_try.
  rewrite collect_all64_spec.
  cbn [EmotionFusion64.available_modalities EmotionFusion64.modality_probs
       EmotionFusion64.modality_weights].
  destruct (used_names64 f s t) as [|m ms] eqn:Hm;
    [by apply used_names64_nonempty in Hu|].
  cbn [length Nat.eqb].
  destruct (used_weights64 f s t w) as [|x ws] eqn:Hw;
    [by apply (used_weights64_nonempty f s t w) in Hu|].
  cbn [Py.mapM]. unfold Py64.truediv at 1. by rewrite Hsum.
Qed.

Lemma late_fusion64_try_raises_value f s t w :
  ~ usable64 f -> ~ usable64 s -> ~ usable64 t ->
  EmotionFusion64.late_fusion_try f s t w
  = Py.Raise (Py.ValueError "No valid modality results provided").
Proof.
  intros Hf Hs Ht. unfold EmotionFusion64.late_fusion_try.
  rewrite collect_all64_spec.
  cbn [EmotionFusion64.available_modalities]. unfold used_names64, used.
  destruct (f ≫= Modality64.probabilities) eqn:Ef;
    [exfalso; apply Hf; unfold usable64; by rewrite Ef|].
  destruct (s ≫= Modality64.probabilities) eqn:Es;
    [exfalso; apply Hs; unfold usable64; by rewrite Es|].
  destruct (t ≫= Modality64.probabilities) eqn:Et;
    [exfalso; apply Ht; unfold usable64; by rewrite Et|].
  reflexivity.
Qed.

Lemma used_lengths64 f s t w :
  length (used_weights64 f s t w) = length (used_names64 f s t).
Proof.
  unfold used_weights64, used_names64, used.
  by destruct (f ≫= Modality64.probabilities),
    (s ≫= Modality64.probabilities), (t ≫= Modality64.probabilities).
Qed.

Lemma list_to_map_zip_is_Some {V} (ks : list string) (vs : list V)
    (m : string) :
  length ks = length vs ->
  is_Some ((list_to_map (zip ks vs) : gmap string V) !! m) <-> m ∈ ks.
Proof.
  intros Hlen.
  assert (Hfst : (zip ks vs).*1 = ks) by (apply fst_zip; lia).
  rewrite <- not_eq_None_Some. split.
  - intros Hn. destruct (decide (m ∈ (zip ks vs).*1)) as [Hin|Hout].
    + by rewrite Hfst in Hin.
    + by apply not_elem_of_list_to_map_1 in Hout.
  - intros Hin Hnone. apply not_elem_of_list_to_map_2 in Hnone.
    by rewrite Hfst in Hnone.
Qed.

End Fusion64.

(** ** Claims about [late_fusion] *)

(** C1, as stated, fails: with no supplied result and with a result
    lacking [probabilities], [late_fusion] does not raise; it returns the
    neutral fallback itself. *)
Lemma late_fusion_without_modality_returns :
  ~ usable None /\ ~ usable unusable_sample
  /\ late_fusion None unusable_sample None None = Py.Return neutral_result
  /\ forall e, late_fusion None unusable_sample None None <> Py.Raise e.
Proof.
  split; [by intros [? ?]|]. split; [by intros [? ?]|].
  split; [reflexivity|]. intros e H. discriminate H.
Qed.

(** C1, amended: whenever no modality is usable (each result is absent or
    lacks [probabilities]), the body raises [ValueError], the handler
    catches it, and [late_fusion] returns the neutral fallback: label
    [neutral], confidence 0.5, probability 1/6 for every canonical label,
    no modality used and no weight. *)
Theorem late_fusion_without_modality_is_neutral f s t w :
  ~ usable f -> ~ usable s -> ~ usable t ->
  late_fusion f s t w = Py.Return neutral_result
  /\ emotion_fused neutral_result = "neutral"
  /\ confidence neutral_result = 0.5
  /\ Py.keys (probabilities neutral_result) = CANONICAL_EMOTIONS
  /\ Forall (fun e => Py.value (probabilities neutral_result) e = 1 # 6)
            CANONICAL_EMOTIONS
  /\ modalities_used neutral_result = []
  /\ weights neutral_result = ∅.
Proof.
  intros Hf Hs Ht. split.
  - unfold late_fusion. by rewrite late_fusion_try_raises_value.
  - repeat split. repeat constructor.
Qed.

Lemma late_fusion_without_modality_is_neutral_witness :
  (~ usable None /\ ~ usable unusable_sample /\ ~ usable None)
  /\ late_fusion None unusable_sample None None = Py.Return neutral_result.
Proof.
  assert (H1 : ~ usable None) by (by intros [? ?]).
  assert (H2 : ~ usable unusable_sample) by (by intros [? ?]).
  split; [done|].
  exact (proj1 (late_fusion_without_modality_is_neutral
                  None unusable_sample None None H1 H2 H1)).
Defined.

(** C3, as stated, fails on a usable contribution of zero weight: the
    call returns the neutral fallback, in which [happy] and [neutral]
    (like every label) have the greatest probability, yet the returned
    label is [neutral], the fifth in the order, and not [happy]. *)
Lemma late_fusion_tie_not_earliest :
  usable64 face_happy64
  /\ exists r,
       EmotionFusion64.late_fusion face_happy64 None None
         (Some {[ "face" := 0%float ]}) = Py.Return r
       /\ is_maximum64 (EmotionFusion64.probabilities r) "happy"
       /\ is_maximum64 (EmotionFusion64.probabilities r)
            (EmotionFusion64.emotion_fused r)
       /\ EmotionFusion64.CANONICAL_EMOTIONS !! 0%nat = Some "happy"
       /\ EmotionFusion64.CANONICAL_EMOTIONS !! 4%nat
          = Some (EmotionFusion64.emotion_fused r)
       /\ EmotionFusion64.emotion_fused r <> "happy".
Proof.
  split; [by eexists|]. exists EmotionFusion64.neutral_result.
  split; [reflexivity|]. split; [repeat constructor|].
  split; [repeat constructor|].
  split; [reflexivity|]. split; [reflexivity|]. discriminate.
Qed.

(** C3, amended: for every call with at least one usable modality whose
    used weights do not sum to zero, the call returns a result whose
    label is a canonical label; every canonical label that has the
    greatest fused probability has the same probability as the returned
    label and comes no earlier in the order happy, sad, angry, calm,
    neutral, excited; and when no fused probability is NaN the returned
    label has the greatest fused probability. *)
Theorem late_fusion_top_is_first_maximum f s t w :
  usable64 f \/ usable64 s \/ usable64 t ->
  (Py64.sum (used_weights64 f s t w) =? 0)%float = false ->
  exists r j,
    EmotionFusion64.late_fusion f s t w = Py.Return r
    /\ EmotionFusion64.CANONICAL_EMOTIONS !! j
       = Some (EmotionFusion64.emotion_fused r)
    /\ (forall (i : nat) e,
          EmotionFusion64.CANONICAL_EMOTIONS !! i = Some e ->
          is_maximum64 (EmotionFusion64.probabilities r) e ->
          (j <= i)%nat
          /\ (Py64.value (EmotionFusion64.probabilities r)
                (EmotionFusion64.emotion_fused r)
              =? Py64.value (EmotionFusion64.probabilities r) e)%float = true)
    /\ (no_nan64 (EmotionFusion64.probabilities r) ->
        is_maximum64 (EmotionFusion64.probabilities r)
          (EmotionFusion64.emotion_fused r)).
Proof.
  intros Hu Hsum.
  pose proof (late_fusion64_computes f s t w Hu Hsum) as Hr. cbv zeta in Hr.
  set (fused := EmotionFusion64.weighted_average (used_probs64 f s t)
                  (normalized64 (used_weights64 f s t w))) in *.
  set (top := Py64.max_from (Py64.value fused) "happy"
                ["sad"; "angry"; "calm"; "neutral"; "excited"]) in *.
  assert (Hin : top ∈ EmotionFusion64.CANONICAL_EMOTIONS)
    by apply max_from64_in.
  apply list_elem_of_lookup in Hin as [j Hj].
  eexists _, j. split; [exact Hr|].
  cbn [EmotionFusion64.emotion_fused EmotionFusion64.probabilities].
  split; [exact Hj|].
  assert (Hscan : no_nan64 fused ->
            exists pre post,
              EmotionFusion64.CANONICAL_EMOTIONS = pre ++ top :: post
              /\ j = length pre
              /\ Forall (fun x => (Py64.value fused x <? Py64.value fused top)%float
                                  = true) pre
              /\ Forall (fun x => (Py64.value fused top <? Py64.value fused x)%float
                                  = false) post).
  { intros Hnn.
    destruct (max_from64_first (Py64.value fused) "happy"
                ["sad"; "angry"; "calm"; "neutral"; "excited"] Hnn)
      as (pre & post & Heq & Hpre & Hpost).
    fold top in Heq, Hpre, Hpost.
    exists pre, post. split; [exact Heq|]. split; [|done].
    apply (NoDup_lookup EmotionFusion64.CANONICAL_EMOTIONS _ _ top);
      [apply canonical64_nodup|exact Hj|].
    unfold EmotionFusion64.CANONICAL_EMOTIONS. rewrite Heq.
    by apply list_lookup_middle. }
  split.
  - intros i e Hi Hmax.
    assert (Hnn : no_nan64 fused).
    { eapply Forall_impl; [exact Hmax|]. intros e' He'. simpl in He'.
      by apply leb_comparable in He' as [? _]. }
    destruct (Hscan Hnn) as (pre & post & Heq & -> & Hpre & Hpost).
    assert (Htop : (Py64.value fused top <=? Py64.value fused e)%float = true).
    { unfold is_maximum64 in Hmax. rewrite Forall_forall in Hmax.
      apply Hmax. by apply list_elem_of_lookup_2 in Hj. }
    assert (Hnot : ~ e ∈ pre).
    { intros He. rewrite Forall_forall in Hpre. specialize (Hpre e He).
      apply ltb_not_leb in Hpre. congruence. }
    split.
    + destruct (decide (i < length pre)%nat) as [Hlt|?]; [|lia].
      exfalso. apply Hnot. rewrite Heq, lookup_app_l in Hi by done.
      by apply list_elem_of_lookup_2 in Hi.
    + apply list_elem_of_lookup_2 in Hi. rewrite Heq in Hi.
      apply elem_of_app in Hi as [Hi|Hi]; [done|].
      apply elem_of_cons in Hi as [->|Hi].
      * apply eqb_refl_comparable. by apply leb_comparable in Htop as [? _].
      * apply leb_not_ltb_eqb; [done|].
        rewrite Forall_forall in Hpost. by apply Hpost.
  - intros Hnn. destruct (Hscan Hnn) as (pre & post & Heq & -> & Hpre & Hpost).
    assert (Hc : forall e, e ∈ EmotionFusion64.CANONICAL_EMOTIONS ->
                   comparable (Py64.value fused e)).
    { unfold no_nan64 in Hnn. by rewrite Forall_forall in Hnn. }
    unfold is_maximum64. apply Forall_forall. intros e He.
    pose proof (Hc e He) as Hce.
    pose proof (Hc top (list_elem_of_lookup_2 _ _ _ Hj)) as Hct.
    rewrite Heq in He. apply elem_of_app in He as [He|He].
    + rewrite Forall_forall in Hpre. by apply ltb_leb, Hpre.
    + apply elem_of_cons in He as [->|He].
      * apply not_ltb_leb; [done..|].
        destruct (Py64.value fused top <? Py64.value fused top)%float eqn:E;
          [|done].
        apply ltb_not_leb in E as E'. apply ltb_leb in E. congruence.
      * apply not_ltb_leb; [done..|].
        rewrite Forall_forall in Hpost. by apply Hpost.
Qed.

(** The amended C3 on a tie: face all [happy], speech all [sad], equal
    weights; [happy] and [sad] both get 0.5, and the label is [happy]. *)
Lemma late_fusion_top_is_first_maximum_witness :
  (usable64 face_happy64 \/ usable64 speech_sad64 \/ usable64 None)
  /\ (Py64.sum (used_weights64 face_happy64 speech_sad64 None
                  (Some {[ "face" := 0.5%float; "speech" := 0.5%float ]}))
      =? 0)%float = false
  /\ exists r j,
       EmotionFusion64.late_fusion face_happy64 speech_sad64 None
         (Some {[ "face" := 0.5%float; "speech" := 0.5%float ]}) = Py.Return r
       /\ EmotionFusion64.CANONICAL_EMOTIONS !! j
          = Some (EmotionFusion64.emotion_fused r)
       /\ (forall (i : nat) e,
             EmotionFusion64.CANONICAL_EMOTIONS !! i = Some e ->
             is_maximum64 (EmotionFusion64.probabilities r) e ->
             (j <= i)%nat
             /\ (Py64.value (EmotionFusion64.probabilities r)
                   (EmotionFusion64.emotion_fused r)
                 =? Py64.value (EmotionFusion64.probabilities r) e)%float = true)
       /\ (no_nan64 (EmotionFusion64.probabilities r) ->
           is_maximum64 (EmotionFusion64.probabilities r)
             (EmotionFusion64.emotion_fused r)).
Proof.
  assert (H1 : usable64 face_happy64 \/ usable64 speech_sad64 \/ usable64 None)
    by (left; by eexists).
  split; [exact H1|]. split; [reflexivity|].
  exact (late_fusion_top_is_first_maximum face_happy64 speech_sad64 None
           (Some {[ "face" := 0.5%float; "speech" := 0.5%float ]}) H1 eq_refl).
Defined.




(** C5, as stated, fails on an infinite weight: with the face result
    alone and [weights = {'face': inf}] the weight is positive, the total
    is infinite, the applied weight inf/inf is NaN, and so is every fused
    probability. *)
Lemma late_fusion_single_modality_infinite_weight :
  usable64 face_happy64 /\ ~ usable64 None
  /\ (0 <? weight_of64 (Some {[ "face" := infinity ]}) "face" 0.4)%float = true
  /\ exists r,
       EmotionFusion64.late_fusion face_happy64 None None
         (Some {[ "face" := infinity ]}) = Py.Return r
       /\ EmotionFusion64.modalities_used r = ["face"]
       /\ EmotionFusion64.weights r = {[ "face" := nan ]}
       /\ Forall (fun e => Py64.value (EmotionFusion64.probabilities r) e = nan)
                 EmotionFusion64.CANONICAL_EMOTIONS.
Proof.
  split; [by eexists|]. split; [by intros [? ?]|]. split; [reflexivity|].
  eexists. split; [vm_compute; reflexivity|].
  split; [reflexivity|]. split; [vm_compute; reflexivity|].
  repeat constructor.
Qed.

Section SingleModality.

Lemma sum64_single (x : float) :
  (0 <? x)%float = true -> (x <? infinity)%float = true ->
  Py64.sum [x] = x /\ (x / x)%float = 1%float /\ (x =? 0)%float = false.
Proof.
  intros H0 Hinf.
  destruct (positive_finite x H0 Hinf) as (m & e & Hx).
  split; [|split].
  - unfold Py64.sum. simpl.
    destruct (add_zero_l x) as [H|[-> _]]; [done|discriminate Hx].
  - by apply (div_self x false m e).
  - rewrite FloatAxioms.eqb_spec, Hx. reflexivity.
Qed.

Lemma fused_single (p : gmap string float) (e : string) :
  same_float (fused_at64 [p] [1%float] e) (Py.get p e 0%float).
Proof.
  unfold fused_at64. simpl. rewrite mul_one_r.
  destruct (add_zero_l (Py.get p e 0%float)) as [->|[-> ->]];
    [by left|by right].
Qed.

Lemma single_used_reproduces f s t w name (p : gmap string float) (x : float) :
  used_names64 f s t = [name] ->
  used_probs64 f s t = [p] ->
  used_weights64 f s t w = [x] ->
  (forall e, e ∉ EmotionFusion64.CANONICAL_EMOTIONS -> p !! e = None) ->
  (0 <? x)%float = true -> (x <? infinity)%float = true ->
  exists r,
    EmotionFusion64.late_fusion f s t w = Py.Return r /\ reproduces64 name p r.
Proof.
  intros Hn Hp Hw Hdom H0 Hinf.
  destruct (sum64_single x H0 Hinf) as (Hsum & Hdiv & Hnz).
  assert (Hu : usable64 f \/ usable64 s \/ usable64 t).
  { unfold usable64, used_names64, used in *.
    destruct (f ≫= Modality64.probabilities); [left; by eexists|].
    destruct (s ≫= Modality64.probabilities); [right; left; by eexists|].
    destruct (t ≫= Modality64.probabilities); [right; right; by eexists|].
    discriminate Hn. }
  pose proof (late_fusion64_computes f s t w Hu) as Hr. cbv zeta in Hr.
  rewrite Hw, Hn, Hp in Hr. unfold normalized64 in Hr.
  rewrite Hsum in Hr. cbn [map] in Hr. rewrite Hdiv in Hr.
  specialize (Hr Hnz).
  eexists. split; [exact Hr|]. unfold reproduces64.
  cbn [EmotionFusion64.probabilities EmotionFusion64.modalities_used
       EmotionFusion64.weights].
  destruct (weighted_average64_spec [p] [1%float]) as [Hk Hv].
  split; [exact Hk|]. split; [|split; [done|]].
  - intros e. destruct (decide (e ∈ EmotionFusion64.CANONICAL_EMOTIONS))
      as [He|He].
    + rewrite Hv by done. apply fused_single.
    + left. unfold Py64.value, Py.get. rewrite (Hdom e He).
      destruct (Py64.store (EmotionFusion64.weighted_average [p] [1%float]) !! e)
        as [v|] eqn:Hs; [|done].
      exfalso. apply He. rewrite <- Hk.
      apply weighted_average64_ok. by eexists.
  - cbn [zip zip_with list_to_map foldr]. by rewrite insert_empty.
Qed.

Lemma used_single_face f s t w p :
  f ≫= Modality64.probabilities = Some p -> ~ usable64 s -> ~ usable64 t ->
  used_names64 f s t = ["face"] /\ used_probs64 f s t = [p]
  /\ used_weights64 f s t w = [weight_of64 w "face" 0.4%float].
Proof.
  unfold used_names64, used_probs64, used_weights64, used, usable64.
  intros Hf Hs Ht. simpl. rewrite Hf.
  destruct (s ≫= Modality64.probabilities); [exfalso; by apply Hs|].
  destruct (t ≫= Modality64.probabilities); [exfalso; by apply Ht|].
  done.
Qed.

Lemma used_single_speech f s t w p :
  ~ usable64 f -> s ≫= Modality64.probabilities = Some p -> ~ usable64 t ->
  used_names64 f s t = ["speech"] /\ used_probs64 f s t = [p]
  /\ used_weights64 f s t w = [weight_of64 w "speech" 0.3%float].
Proof.
  unfold used_names64, used_probs64, used_weights64, used, usable64.
  intros Hf Hs Ht. simpl. rewrite Hs.
  destruct (f ≫= Modality64.probabilities); [exfalso; by apply Hf|].
  destruct (t ≫= Modality64.probabilities); [exfalso; by apply Ht|].
  done.
Qed.

Lemma used_single_text f s t w p :
  ~ usable64 f -> ~ usable64 s -> t ≫= Modality64.probabilities = Some p ->
  used_names64 f s t = ["text"] /\ used_probs64 f s t = [p]
  /\ used_weights64 f s t w = [weight_of64 w "text" 0.3%float].
Proof.
  unfold used_names64, used_probs64, used_weights64, used, usable64.
  intros Hf Hs Ht. simpl. rewrite Ht.
  destruct (f ≫= Modality64.probabilities); [exfalso; by apply Hf|].
  destruct (s ≫= Modality64.probabilities); [exfalso; by apply Hs|].
  done.
Qed.

End SingleModality.

(** C5, amended: when exactly one modality is usable, with a probability
    vector [p] over the canonical labels and a weight (the caller's entry
    for the modality, or the default) that is positive and finite, the
    call returns a result whose distribution has exactly the canonical
    labels as keys and holds for each label the entry of [p] ([0.0] where
    [p] has none or has [-0.0]), whose only used modality is that one,
    and whose weights mapping is exactly that modality at [1.0]. *)
Theorem late_fusion_single_modality f s t w (p : gmap string float) :
  (forall e, e ∉ EmotionFusion64.CANONICAL_EMOTIONS -> p !! e = None) ->
  (f ≫= Modality64.probabilities = Some p -> ~ usable64 s -> ~ usable64 t ->
   (0 <? weight_of64 w "face" 0.4)%float = true ->
   (weight_of64 w "face" 0.4 <? infinity)%float = true ->
   exists r, EmotionFusion64.late_fusion f s t w = Py.Return r
             /\ reproduces64 "face" p r)
  /\ (~ usable64 f -> s ≫= Modality64.probabilities = Some p -> ~ usable64 t ->
      (0 <? weight_of64 w "speech" 0.3)%float = true ->
      (weight_of64 w "speech" 0.3 <? infinity)%float = true ->
      exists r, EmotionFusion64.late_fusion f s t w = Py.Return r
                /\ reproduces64 "speech" p r)
  /\ (~ usable64 f -> ~ usable64 s -> t ≫= Modality64.probabilities = Some p ->
      (0 <? weight_of64 w "text" 0.3)%float = true ->
      (weight_of64 w "text" 0.3 <? infinity)%float = true ->
      exists r, EmotionFusion64.late_fusion f s t w = Py.Return r
                /\ reproduces64 "text" p r).
Proof.
  intros Hdom. split; [|split].
  - intros Hf Hs Ht H0 Hinf.
    destruct (used_single_face f s t w p Hf Hs Ht) as (Hn & Hp & Hw).
    by apply (single_used_reproduces f s t w "face" p
                (weight_of64 w "face" 0.4%float)).
  - intros Hf Hs Ht H0 Hinf.
    destruct (used_single_speech f s t w p Hf Hs Ht) as (Hn & Hp & Hw).
    by apply (single_used_reproduces f s t w "speech" p
                (weight_of64 w "speech" 0.3%float)).
  - intros Hf Hs Ht H0 Hinf.
    destruct (used_single_text f s t w p Hf Hs Ht) as (Hn & Hp & Hw).
    by apply (single_used_reproduces f s t w "text" p
                (weight_of64 w "text" 0.3%float)).
Qed.

(** The amended C5 on the speech result (0.9 happy, 0.1 sad) alone, with
    the weight 2.5 given by the caller. *)
Lemma late_fusion_single_modality_witness :
  (forall e, e ∉ EmotionFusion64.CANONICAL_EMOTIONS ->
     ({[ "happy" := 0.9%float; "sad" := 0.1%float ]} : gmap string float) !! e
     = None)
  /\ (0 <? weight_of64 (Some {[ "speech" := 2.5%float ]}) "speech" 0.3)%float
     = true
  /\ (weight_of64 (Some {[ "speech" := 2.5%float ]}) "speech" 0.3 <? infinity)%float
     = true
  /\ exists r,
       EmotionFusion64.late_fusion None speech_mostly_happy64 None
         (Some {[ "speech" := 2.5%float ]}) = Py.Return r
       /\ reproduces64 "speech" {[ "happy" := 0.9%float; "sad" := 0.1%float ]} r.
Proof.
  assert (Hdom : forall e, e ∉ EmotionFusion64.CANONICAL_EMOTIONS ->
     ({[ "happy" := 0.9%float; "sad" := 0.1%float ]} : gmap string float) !! e
     = None).
  { intros e He.
    destruct (decide (e = "happy")) as [->|H1];
      [exfalso; apply He; compute_done|].
    destruct (decide (e = "sad")) as [->|H2];
      [exfalso; apply He; compute_done|].
    rewrite lookup_insert_ne by done. by rewrite lookup_singleton_ne. }
  split; [exact Hdom|]. split; [reflexivity|]. split; [reflexivity|].
  apply (proj1 (proj2 (late_fusion_single_modality None speech_mostly_happy64
                         None (Some {[ "speech" := 2.5%float ]})
                         {[ "happy" := 0.9%float; "sad" := 0.1%float ]} Hdom))).
  - by intros [? ?].
  - reflexivity.
  - by intros [? ?].
  - reflexivity.
  - reflexivity.
Defined.

(** C10: when at least one modality is usable and the caller's weights
    map every usable modality to zero, the division by the zero total
    raises [ZeroDivisionError] inside the body, the handler catches it,
    and the call returns the neutral fallback: label [neutral],
    confidence 0.5, 1/6 for each canonical label, no modality used and no
    weight. *)
Theorem late_fusion_zero_weights_is_neutral f s t (m : gmap string float) :
  usable64 f \/ usable64 s \/ usable64 t ->
  (usable64 f -> exists x, m !! "face" = Some x /\ (x =? 0)%float = true) ->
  (usable64 s -> exists x, m !! "speech" = Some x /\ (x =? 0)%float = true) ->
  (usable64 t -> exists x, m !! "text" = Some x /\ (x =? 0)%float = true) ->
  EmotionFusion64.late_fusion_try f s t (Some m) = Py.Raise Py.ZeroDivisionError
  /\ exists r,
       EmotionFusion64.late_fusion f s t (Some m) = Py.Return r
       /\ EmotionFusion64.emotion_fused r = "neutral"
       /\ EmotionFusion64.confidence r = 0.5%float
       /\ Py64.keys (EmotionFusion64.probabilities r)
          = ["happy"; "sad"; "angry"; "calm"; "neutral"; "excited"]
       /\ Forall (fun e => Py64.value (EmotionFusion64.probabilities r) e
                           = (1 / 6)%float)
                 ["happy"; "sad"; "angry"; "calm"; "neutral"; "excited"]
       /\ EmotionFusion64.modalities_used r = []
       /\ EmotionFusion64.weights r = ∅.
Proof.
  intros Hu Hf Hs Ht.
  assert (Hsum : (Py64.sum (used_weights64 f s t (Some m)) =? 0)%float = true).
  { apply sum64_zeros.
    - unfold used_weights64, used.
      destruct (f ≫= Modality64.probabilities),
        (s ≫= Modality64.probabilities), (t ≫= Modality64.probabilities);
        simpl; lia.
    - unfold used_weights64, used, usable64, weight_of64, Py.get in *.
      cbn [default from_option id].
      repeat apply Forall_app_2.
      + destruct (f ≫= Modality64.probabilities); [|constructor].
        destruct Hf as (x & -> & Hx); [by eexists|]. by repeat constructor.
      + destruct (s ≫= Modality64.probabilities); [|constructor].
        destruct Hs as (x & -> & Hx); [by eexists|]. by repeat constructor.
      + destruct (t ≫= Modality64.probabilities); [|constructor].
        destruct Ht as (x & -> & Hx); [by eexists|]. by repeat constructor. }
  pose proof (late_fusion64_try_raises_zero f s t (Some m) Hu Hsum) as Htry.
  split; [exact Htry|].
  exists EmotionFusion64.neutral_result. split.
  - unfold EmotionFusion64.late_fusion. by rewrite Htry.
  - repeat split. repeat constructor.
Qed.

Lemma late_fusion_zero_weights_is_neutral_witness :
  (usable64 face_happy64 \/ usable64 speech_sad64 \/ usable64 None)
  /\ exists r,
       EmotionFusion64.late_fusion face_happy64 speech_sad64 None
         (Some {[ "face" := 0%float; "speech" := 0%float ]}) = Py.Return r
       /\ EmotionFusion64.emotion_fused r = "neutral"
       /\ EmotionFusion64.confidence r = 0.5%float
       /\ Py64.keys (EmotionFusion64.probabilities r)
          = ["happy"; "sad"; "angry"; "calm"; "neutral"; "excited"]
       /\ Forall (fun e => Py64.value (EmotionFusion64.probabilities r) e
                           = (1 / 6)%float)
                 ["happy"; "sad"; "angry"; "calm"; "neutral"; "excited"]
       /\ EmotionFusion64.modalities_used r = []
       /\ EmotionFusion64.weights r = ∅.
Proof.
  assert (H : usable64 face_happy64 \/ usable64 speech_sad64 \/ usable64 None)
    by (left; by eexists).
  split; [exact H|].
  refine (proj2 (late_fusion_zero_weights_is_neutral
                   face_happy64 speech_sad64 None
                   {[ "face" := 0%float; "speech" := 0%float ]} H _ _ _)).
  - intros _. by exists 0%float.
  - intros _. by exists 0%float.
  - by intros [? ?].
Defined.

(** ** Facts about the playlist table *)

Section Playlist.

Lemma filter_filter {A} (f g : A -> bool) (l : list A) :
  List.filter f (List.filter g l) = List.filter (fun x => g x && f x) l.
Proof.
  induction l as [|x l IH]; simpl; [done|].
  destruct (g x); simpl; [|done]. destruct (f x); by rewrite IH.
Qed.

Lemma filter_all_true {A} (l : list A) : List.filter (fun _ => true) l = l.
Proof. induction l as [|x l IH]; simpl; [done|]. by rewrite IH. Qed.

(** The feature-by-feature loop keeps exactly the matching rows. *)
Lemma apply_criteria_filter (criteria : Criteria) (df : DataFrame) :
  apply_criteria criteria df = List.filter (matches criteria) df.
Proof.
  unfold apply_criteria. revert df.
  induction criteria as [|c cs IH]; intros df; simpl.
  - by rewrite filter_all_true.
  - by rewrite IH, filter_filter.
Qed.

Lemma matches_both_within vlo vhi elo ehi (r : Row) :
  matches [("valence", (vlo, vhi)); ("energy", (elo, ehi))] r
  = both_within vlo vhi elo ehi r.
Proof.
  unfold matches, both_within, between, column. simpl.
  destruct (valence r) as [v|], (energy r) as [e|]; simpl;
    rewrite ?andb_true_r, ?andb_false_r, ?andb_assoc; done.
Qed.

Lemma filter_nil_of_none {A} (f : A -> bool) (l : list A) :
  (forall x, x ∈ l -> f x = false) -> List.filter f l = [].
Proof.
  induction l as [|x l IH]; intros H; simpl; [done|].
  rewrite (H x) by left. apply IH. intros y Hy. apply H. by right.
Qed.

Lemma sample_nonempty (df : DataFrame) (draw : nat) :
  df <> [] -> exists r, r ∈ df /\ sample df draw = Py.Return r.
Proof.
  intros Hne. unfold sample.
  assert (Hlt : (draw mod length df < length df)%nat).
  { apply Nat.mod_upper_bound. by destruct df. }
  apply lookup_lt_is_Some in Hlt as [r Hr].
  exists r. rewrite Hr. split; [|done].
  by apply list_elem_of_lookup_2 in Hr.
Qed.

Lemma not_loaded_nonempty (df : DataFrame) :
  df <> [] -> not_loaded (Some df) = false.
Proof. by destruct df. Qed.

Lemma mood_distribution_lookup (df : DataFrame) (emotion : string) :
  emotion ∈ map fst EMOTION_CRITERIA ->
  mood_distribution df !! emotion
  = Some (length (apply_criteria (criteria_at emotion) df)).
Proof.
  unfold mood_distribution.
  generalize (∅ : gmap string nat).
  induction (map fst EMOTION_CRITERIA) as [|k ks IH] using rev_ind;
    intros m Hin.
  - by apply elem_of_nil in Hin.
  - rewrite foldl_app. simpl.
    destruct (decide (emotion = k)) as [->|Hne].
    + by rewrite lookup_insert_eq.
    + rewrite lookup_insert_ne by done. apply IH.
      apply elem_of_app in Hin as [?|Hin]; [done|].
      by apply list_elem_of_singleton in Hin.
Qed.

End Playlist.

Section Matcher.

Lemma song_of_spec (r : Row) (s : Song) :
  song_of r = Py.Return s -> is_song_of r s.
Proof.
  unfold song_of, int_of. destruct (duration_ms r) as [d|] eqn:Hd; [|done].
  intros [= <-]. unfold is_song_of. by rewrite Hd.
Qed.

Lemma song_of_present (r : Row) :
  is_Some (duration_ms r) -> exists s, song_of r = Py.Return s /\ is_song_of r s.
Proof.
  intros [d Hd]. unfold song_of, int_of. rewrite Hd.
  eexists. split; [reflexivity|]. unfold is_song_of. by rewrite Hd.
Qed.

Lemma song_of_missing (r : Row) :
  duration_ms r = None -> exists e, song_of r = Py.Raise e.
Proof. intros Hd. unfold song_of, int_of. rewrite Hd. by eexists. Qed.

(** On a non-empty table the call draws from the candidates, or from the
    whole table when there is none, and builds the mapping of the drawn
    row. *)
Lemma recommend_unfold (df : DataFrame) emotion cur draw :
  df <> [] ->
  recommend_by_emotion (Some df) emotion cur draw
  = match sample (if (length (candidates df emotion cur) =? 0)%nat
                  then df else candidates df emotion cur) draw with
    | Py.Return song =>
        match song_of song with
        | Py.Return result => Some result
        | Py.Raise _ => None
        end
    | Py.Raise _ => None
    end.
Proof.
  intros Hne. unfold recommend_by_emotion, recommend_try.
  rewrite not_loaded_nonempty by done.
  cbn [default from_option id]. fold (criteria_for emotion).
  unfold candidates.
  destruct (truthy cur);
    match goal with |- context [sample ?l draw] => destruct (sample l draw) end;
    try reflexivity; unfold mbind, outcome_bind, Py.bind;
    match goal with |- context [song_of ?r] => destruct (song_of r) end;
    reflexivity.
Qed.

Lemma candidates_spec (df : DataFrame) emotion cur (r : Row) :
  r ∈ candidates df emotion cur ->
  r ∈ df /\ matches (criteria_for emotion) r = true
  /\ (truthy cur = true -> Some (track_id r) <> cur).
Proof.
  unfold candidates. rewrite apply_criteria_filter.
  destruct (truthy cur); rewrite !list_elem_of_In, ?filter_In.
  - intros [[H1 H2] H3]. split; [done|]. split; [done|]. intros _.
    by apply negb_true_iff, bool_decide_eq_false in H3.
  - intros [H1 H2]. split; [done|]. split; [done|]. discriminate.
Qed.

Lemma candidates_none (df : DataFrame) emotion cur :
  (forall r, r ∈ df -> matches (criteria_for emotion) r = false) ->
  candidates df emotion cur = [].
Proof.
  intros Hmiss. unfold candidates.
  rewrite apply_criteria_filter, (filter_nil_of_none _ _ Hmiss).
  by destruct (truthy cur).
Qed.

End Matcher.

(** ** Claims about [recommend_by_emotion] *)

(** C2 at its failing input: the snapshot holds A (the only track in the
    happy ranges) and B; with A excluded the candidate set is empty, the
    fallback takes the whole table, A included, and the draw 0 returns
    the mapping of A. *)
Theorem recommend_fallback_returns_excluded :
  track_B ∈ [track_A; track_B]
  /\ track_id track_B <> "A"
  /\ apply_criteria (criteria_for "happy") [track_A; track_B] = [track_A]
  /\ recommend_by_emotion (Some [track_A; track_B]) "happy" (Some "A") 0
     = Some song_A
  /\ song_id song_A = "A"
  /\ is_song_of track_A song_A.
Proof.
  split; [right; left|]. split; [discriminate|].
  split; [reflexivity|]. split; [reflexivity|]. split; [reflexivity|].
  repeat split.
Qed.

(** Where the candidate set is not emptied by the exclusion, the excluded
    track is never returned. *)
Lemma recommend_excludes_among_candidates df emotion cur draw song :
  cur <> "" ->
  candidates df emotion (Some cur) <> [] ->
  recommend_by_emotion (Some df) emotion (Some cur) draw = Some song ->
  song_id song <> cur.
Proof.
  intros Hcur Hne.
  assert (Ht : truthy (Some cur) = true).
  { unfold truthy. destruct (String.eqb_spec cur ""); done. }
  assert (Hdf : df <> []).
  { intros ->. apply Hne. unfold candidates. rewrite apply_criteria_filter.
    by rewrite Ht. }
  rewrite recommend_unfold by done.
  destruct (candidates df emotion (Some cur)) as [|c cs] eqn:Hc; [done|].
  cbn [length Nat.eqb].
  destruct (sample_nonempty (c :: cs) draw) as (r & Hin & ->); [done|].
  destruct (song_of r) as [s|e] eqn:Hs; [|done].
  intros [= <-]. apply song_of_spec in Hs as [Hid _].
  rewrite <- Hc in Hin. apply candidates_spec in Hin as (_ & _ & Hx).
  specialize (Hx Ht). congruence.
Qed.

(** C6 on the code: an unloaded or empty table yields [None] for every
    label, exclusion and draw; but a table holding only the excluded track
    A yields the mapping of A, through the same fallback as in C2. *)
Theorem recommend_empty_and_fully_excluded :
  (forall emotion cur draw,
      recommend_by_emotion None emotion cur draw = None
      /\ recommend_by_emotion (Some []) emotion cur draw = None)
  /\ List.filter (fun r => negb (bool_decide (track_id r = "A"))) [track_A] = []
  /\ recommend_by_emotion (Some [track_A]) "happy" (Some "A") 0 = Some song_A
  /\ song_id song_A = "A"
  /\ is_song_of track_A song_A.
Proof.
  split; [by intros emotion cur draw|]. split; [reflexivity|].
  split; [reflexivity|]. split; [reflexivity|]. repeat split.
Qed.

(** C7, as stated, fails on a row whose [duration_ms] cell is empty: the
    snapshot is not empty, no row lies in the happy ranges, the fallback
    draws the row, [int] raises on the missing cell and the handler
    returns [None]. *)
Lemma recommend_degraded_fails_without_duration :
  [track_untimed] <> []
  /\ (forall r, r ∈ [track_untimed] -> matches (criteria_for "happy") r = false)
  /\ forall draw,
       recommend_by_emotion (Some [track_untimed]) "happy" None draw = None.
Proof.
  split; [discriminate|]. split.
  - intros r Hr. apply list_elem_of_singleton in Hr as ->. reflexivity.
  - intros draw. rewrite recommend_unfold by discriminate.
    rewrite candidates_none.
    + cbn [length Nat.eqb]. unfold sample. cbn [length].
      by rewrite Nat.mod_1_r.
    + intros r Hr. apply list_elem_of_singleton in Hr as ->. reflexivity.
Qed.

(** C7, amended: on a non-empty snapshot whose rows all have their
    [duration_ms] cell and none of which lies within the ranges of the
    criteria looked up for the label, the call returns the mapping of a
    row of the snapshot, field by field, whatever the exclusion and the
    draw. *)
Theorem recommend_degraded_match df emotion cur draw :
  df <> [] ->
  (forall r, r ∈ df -> is_Some (duration_ms r)) ->
  (forall r, r ∈ df -> matches (criteria_for emotion) r = false) ->
  exists r s,
    r ∈ df
    /\ recommend_by_emotion (Some df) emotion cur draw = Some s
    /\ is_song_of r s.
Proof.
  intros Hne Hdur Hmiss.
  rewrite recommend_unfold, candidates_none by done.
  cbn [length Nat.eqb].
  destruct (sample_nonempty df draw Hne) as (r & Hin & ->).
  destruct (song_of_present r (Hdur r Hin)) as (s & -> & Hs).
  by exists r, s.
Qed.

Lemma recommend_degraded_match_witness :
  exists r s,
    r ∈ [track_B; track_C]
    /\ recommend_by_emotion (Some [track_B; track_C]) "happy" None 1 = Some s
    /\ is_song_of r s.
Proof.
  apply recommend_degraded_match.
  - discriminate.
  - intros r Hr. apply elem_of_cons in Hr as [->|Hr]; [by eexists|].
    apply list_elem_of_singleton in Hr as ->. by eexists.
  - intros r Hr. apply elem_of_cons in Hr as [->|Hr]; [reflexivity|].
    apply list_elem_of_singleton in Hr as ->. reflexivity.
Defined.

(** ** Claims about [get_playlist_stats] *)

(** C8 at its failing input: for an unloaded or empty table the returned
    mapping has the five keys of the first [return] only; it has no
    [average_tempo] and no [mood_distribution], which the branch for a
    non-empty table does return. *)
Theorem stats_empty_lacks_tempo_and_moods :
  get_playlist_stats None = get_playlist_stats (Some [])
  /\ get_playlist_stats (Some [])
     = {[ "total_songs" := VInt 0;
          "total_duration_hours" := VInt 0;
          "average_valence" := VInt 0;
          "average_energy" := VInt 0;
          "cached" := VBool false ]}
  /\ get_playlist_stats (Some []) !! "average_tempo" = None
  /\ get_playlist_stats (Some []) !! "mood_distribution" = None
  /\ get_playlist_stats (Some [track_A]) !! "average_tempo"
     = Some (VFloat (mean [Some 120]))
  /\ get_playlist_stats (Some [track_A]) !! "mood_distribution"
     = Some (VCounts (mood_distribution [track_A])).
Proof.
  split; [reflexivity|]. split; [reflexivity|].
  split; [reflexivity|]. split; [reflexivity|].
  split; reflexivity.
Qed.

Lemma stats_nonempty_moods (df : DataFrame) :
  df <> [] ->
  get_playlist_stats (Some df) !! "mood_distribution"
  = Some (VCounts (mood_distribution df))
  /\ get_playlist_stats (Some df) !! "total_songs"
     = Some (VInt (Z.of_nat (length df))).
Proof.
  intros Hne. unfold get_playlist_stats.
  rewrite not_loaded_nonempty by done.
  cbn [default from_option id]. split; by simplify_map_eq.
Qed.

Lemma bucket_counts (df : DataFrame) (label : string) vlo vhi elo ehi :
  label ∈ map fst EMOTION_CRITERIA ->
  criteria_at label = [("valence", (vlo, vhi)); ("energy", (elo, ehi))] ->
  mood_distribution df !! label
  = Some (length (List.filter (both_within vlo vhi elo ehi) df)).
Proof.
  intros Hin Hc. rewrite mood_distribution_lookup by done.
  rewrite Hc, apply_criteria_filter. do 2 f_equal.
  apply List.filter_ext. intros r. apply matches_both_within.
Qed.

(** C9: for a non-empty snapshot and a canonical label, the criteria table
    gives the label an inclusive valence range and an inclusive energy
    range, and the label's bucket of [mood_distribution] is the number of
    rows of the whole snapshot whose valence and energy are both present
    and within these ranges.  Buckets overlap: on the snapshot holding
    only A (valence 0.8, energy 0.8) the buckets sum to 2 while
    [total_songs] is 1. *)
Theorem mood_distribution_counts :
  (forall (df : DataFrame) (label : string),
      df <> [] -> label ∈ CANONICAL_EMOTIONS ->
      exists vlo vhi elo ehi counts,
        (list_to_map EMOTION_CRITERIA : gmap string Criteria) !! label
        = Some [("valence", (vlo, vhi)); ("energy", (elo, ehi))]
        /\ get_playlist_stats (Some df) !! "mood_distribution"
           = Some (VCounts counts)
        /\ counts !! label
           = Some (length (List.filter (both_within vlo vhi elo ehi) df)))
  /\ (exists counts,
        get_playlist_stats (Some [track_A]) !! "mood_distribution"
        = Some (VCounts counts)
        /\ get_playlist_stats (Some [track_A]) !! "total_songs" = Some (VInt 1)
        /\ counts !! "happy" = Some 1%nat
        /\ counts !! "excited" = Some 1%nat
        /\ sum_list (map (fun e => default 0%nat (counts !! e)) CANONICAL_EMOTIONS)
           = 2%nat).
Proof.
  split.
  - intros df label Hne Hin.
    destruct (stats_nonempty_moods df Hne) as [Hm _].
    assert (Hcase :
      exists vlo vhi elo ehi,
        criteria_at label = [("valence", (vlo, vhi)); ("energy", (elo, ehi))]
        /\ (list_to_map EMOTION_CRITERIA : gmap string Criteria) !! label
           = Some [("valence", (vlo, vhi)); ("energy", (elo, ehi))]).
    { unfold CANONICAL_EMOTIONS in Hin.
      repeat (apply elem_of_cons in Hin as [->|Hin]);
        [..|by apply elem_of_nil in Hin];
        do 4 eexists; split; reflexivity. }
    destruct Hcase as (vlo & vhi & elo & ehi & Hc & Ht).
    exists vlo, vhi, elo, ehi, (mood_distribution df).
    split; [done|]. split; [done|].
    apply bucket_counts; [exact Hin|done].
  - exists (mood_distribution [track_A]).
    split; [reflexivity|]. split; [reflexivity|].
    split; [reflexivity|]. split; reflexivity.
Qed.

Lemma mood_distribution_counts_witness :
  [track_A; track_B; track_C] <> [] /\ "sad" ∈ CANONICAL_EMOTIONS
  /\ exists vlo vhi elo ehi counts,
       (list_to_map EMOTION_CRITERIA : gmap string Criteria) !! "sad"
       = Some [("valence", (vlo, vhi)); ("energy", (elo, ehi))]
       /\ get_playlist_stats (Some [track_A; track_B; track_C])
            !! "mood_distribution"
          = Some (VCounts counts)
       /\ counts !! "sad"
          = Some (length (List.filter (both_within vlo vhi elo ehi)
                                      [track_A; track_B; track_C])).
Proof.
  assert (H1 : [track_A; track_B; track_C] <> []) by discriminate.
  assert (H2 : "sad" ∈ CANONICAL_EMOTIONS) by (right; left).
  split; [exact H1|]. split; [exact H2|].
  exact (proj1 mood_distribution_counts [track_A; track_B; track_C] "sad" H1 H2).
Defined.

(** ** Worked scenarios *)

(** Face (0.2 happy, 0.8 sad) and speech (0.9 happy, 0.1 sad) under the
    default weights: in real numbers both labels get 1/2; in binary64
    [sad] gets the greater value and is the label. *)
Example fusion64_rounding_breaks_tie :
  exists r,
    EmotionFusion64.late_fusion face_mostly_sad64 speech_mostly_happy64
      None None = Py.Return r
    /\ EmotionFusion64.emotion_fused r = "sad"
    /\ EmotionFusion64.confidence r = 0.5000000000000001%float
    /\ Py64.value (EmotionFusion64.probabilities r) "happy" = 0.5%float.
Proof. eexists. split; [vm_compute; reflexivity|]. by repeat split. Qed.

(** Face all [happy] and speech all [sad] with equal weights: both labels
    get exactly 0.5 and the label is [happy], the earlier one. *)
Example fusion64_exact_tie :
  exists r,
    EmotionFusion64.late_fusion face_happy64 speech_sad64 None
      (Some {[ "face" := 0.5%float; "speech" := 0.5%float ]}) = Py.Return r
    /\ EmotionFusion64.emotion_fused r = "happy"
    /\ Py64.value (EmotionFusion64.probabilities r) "happy" = 0.5%float
    /\ Py64.value (EmotionFusion64.probabilities r) "sad" = 0.5%float.
Proof. eexists. split; [vm_compute; reflexivity|]. by repeat split. Qed.

(** On the snapshot A, B, C the label happy selects A and the label sad
    selects B, whatever the draw. *)
Example recommend_happy_and_sad (draw : nat) :
  recommend_by_emotion (Some [track_A; track_B; track_C]) "happy" None draw
  = Some song_A
  /\ exists s,
       recommend_by_emotion (Some [track_A; track_B; track_C]) "sad" None draw
       = Some s
       /\ is_song_of track_B s.
Proof.
  assert (H1 : candidates [track_A; track_B; track_C] "happy" None = [track_A])
    by reflexivity.
  assert (H2 : candidates [track_A; track_B; track_C] "sad" None = [track_B])
    by reflexivity.
  rewrite !recommend_unfold, H1, H2 by discriminate.
  unfold sample. cbn [length Nat.eqb]. rewrite Nat.mod_1_r.
  split; [reflexivity|]. eexists. split; [reflexivity|]. repeat split.
Qed.

(** * Further properties of the matcher, the statistics and the fusion *)

(** X1: on a non-empty table whose rows all have their [duration_ms]
    cell, [recommend_by_emotion] always returns a song, and the song is a
    row of the table, field by field, whatever the label, the excluded id
    and the draw. *)
Theorem recommend_nonempty_returns_row (df : DataFrame) emotion cur draw :
  df <> [] ->
  (forall r, r ∈ df -> is_Some (duration_ms r)) ->
  exists r s,
    r ∈ df
    /\ recommend_by_emotion (Some df) emotion cur draw = Some s
    /\ is_song_of r s.
Proof.
  intros Hne Hdur. rewrite recommend_unfold by done.
  destruct (candidates df emotion cur) as [|c cs] eqn:Hc; cbn [length Nat.eqb].
  - destruct (sample_nonempty df draw Hne) as (r & Hin & ->).
    destruct (song_of_present r (Hdur r Hin)) as (s & -> & Hs).
    by exists r, s.
  - destruct (sample_nonempty (c :: cs) draw) as (r & Hin & ->); [done|].
    rewrite <- Hc in Hin. apply candidates_spec in Hin as [Hin _].
    destruct (song_of_present r (Hdur r Hin)) as (s & -> & Hs).
    by exists r, s.
Qed.

Lemma recommend_nonempty_returns_row_witness :
  exists r s,
    r ∈ [track_A; track_B]
    /\ recommend_by_emotion (Some [track_A; track_B]) "angry" (Some "B") 7
       = Some s
    /\ is_song_of r s.
Proof.
  apply recommend_nonempty_returns_row.
  - discriminate.
  - intros r Hr. apply elem_of_cons in Hr as [->|Hr]; [by eexists|].
    apply list_elem_of_singleton in Hr as ->. by eexists.
Defined.

(** X2: when some row satisfies the criteria of the label and is not the
    excluded track, the drawn row is such a row: it lies within every
    range of the criteria and, for a non-empty excluded id, its id
    differs from it; the call returns its mapping, or [None] when its
    [duration_ms] cell is empty. *)
Theorem recommend_returns_candidate (df : DataFrame) emotion cur draw :
  candidates df emotion cur <> [] ->
  exists r,
    r ∈ df
    /\ matches (criteria_for emotion) r = true
    /\ (truthy cur = true -> Some (track_id r) <> cur)
    /\ match duration_ms r with
       | Some _ =>
           exists s, recommend_by_emotion (Some df) emotion cur draw = Some s
                     /\ is_song_of r s
       | None => recommend_by_emotion (Some df) emotion cur draw = None
       end.
Proof.
  intros Hc.
  assert (Hne : df <> []).
  { intros ->. apply Hc. unfold candidates. rewrite apply_criteria_filter.
    by destruct (truthy cur). }
  rewrite recommend_unfold by done.
  destruct (candidates df emotion cur) as [|c cs] eqn:Heq; [done|].
  cbn [length Nat.eqb].
  destruct (sample_nonempty (c :: cs) draw) as (r & Hin & ->); [done|].
  exists r. rewrite <- Heq in Hin.
  apply candidates_spec in Hin as (H1 & H2 & H3).
  split; [done|]. split; [done|]. split; [done|].
  destruct (duration_ms r) as [d|] eqn:Hd.
  - destruct (song_of_present r) as (s & -> & Hs); [by rewrite Hd|].
    by exists s.
  - by destruct (song_of_missing r Hd) as [e ->].
Qed.

Lemma recommend_returns_candidate_witness :
  exists r,
    r ∈ [track_A; track_B; track_C]
    /\ matches (criteria_for "neutral") r = true
    /\ (truthy (Some "A") = true -> Some (track_id r) <> Some "A")
    /\ match duration_ms r with
       | Some _ =>
           exists s,
             recommend_by_emotion (Some [track_A; track_B; track_C])
               "neutral" (Some "A") 5 = Some s
             /\ is_song_of r s
       | None =>
           recommend_by_emotion (Some [track_A; track_B; track_C])
             "neutral" (Some "A") 5 = None
       end.
Proof.
  apply (recommend_returns_candidate [track_A; track_B; track_C]).
  discriminate.
Defined.

(** X3: a label outside the criteria table is served exactly like
    [neutral]. *)
Theorem recommend_unknown_label_is_neutral playlist_df emotion cur draw :
  emotion ∉ CANONICAL_EMOTIONS ->
  recommend_by_emotion playlist_df emotion cur draw
  = recommend_by_emotion playlist_df "neutral" cur draw.
Proof.
  intros Hun.
  assert (Hc : criteria_for emotion = criteria_for "neutral").
  { unfold criteria_for, Py.get.
    rewrite (not_elem_of_list_to_map_1 EMOTION_CRITERIA emotion); [done|].
    exact Hun. }
  unfold recommend_by_emotion, recommend_try.
  fold (criteria_for emotion). fold (criteria_for "neutral").
  by rewrite Hc.
Qed.

Lemma recommend_unknown_label_is_neutral_witness :
  recommend_by_emotion (Some [track_A; track_B; track_C]) "bored" None 2
  = recommend_by_emotion (Some [track_A; track_B; track_C]) "neutral" None 2.
Proof.
  apply recommend_unknown_label_is_neutral.
  intros H. repeat (apply elem_of_cons in H as [H|H]; [discriminate H|]).
  by apply elem_of_nil in H.
Defined.

Section Buckets.

Lemma mood_distribution_lookup_none (df : DataFrame) (label : string) :
  label ∉ map fst EMOTION_CRITERIA -> mood_distribution df !! label = None.
Proof.
  unfold mood_distribution.
  assert (H0 : (∅ : gmap string nat) !! label = None) by apply lookup_empty.
  revert H0. generalize (∅ : gmap string nat).
  induction (map fst EMOTION_CRITERIA) as [|k ks IH]; intros m Hm Hin; simpl.
  - done.
  - apply IH.
    + rewrite lookup_insert_ne; [done|]. intros ->. apply Hin. left.
    + intros H. apply Hin. by right.
Qed.

Lemma missing_cell_never_matches (r : Row) (label : string) :
  valence r = None \/ energy r = None ->
  label ∈ CANONICAL_EMOTIONS ->
  matches (criteria_at label) r = false.
Proof.
  intros Hnan Hin. unfold CANONICAL_EMOTIONS in Hin.
  repeat (apply elem_of_cons in Hin as [->|Hin]);
    [..|by apply elem_of_nil in Hin];
    match goal with
    | |- matches (criteria_at ?l) r = false =>
        let c := eval vm_compute in (criteria_at l) in
        change (criteria_at l) with c
    end;
    rewrite matches_both_within; unfold both_within;
    destruct Hnan as [-> | ->]; [done|by destruct (valence r)..].
Qed.

End Buckets.

(** X4: [mood_distribution] has a bucket for each of the six labels and
    for nothing else, and no bucket exceeds the number of rows. *)
Theorem mood_buckets_keys_and_bound (df : DataFrame) (label : string) :
  (is_Some (mood_distribution df !! label) <-> label ∈ CANONICAL_EMOTIONS)
  /\ (forall n, mood_distribution df !! label = Some n -> (n <= length df)%nat).
Proof.
  destruct (decide (label ∈ CANONICAL_EMOTIONS)) as [Hin|Hout].
  - rewrite (mood_distribution_lookup df label Hin). split.
    + split; [done|]. by eexists.
    + intros n [= <-]. rewrite apply_criteria_filter. apply List.filter_length_le.
  - rewrite (mood_distribution_lookup_none df label Hout). split.
    + split; [by intros [? ?]|done].
    + discriminate.
Qed.

(** X5: a row whose valence or energy cell is missing is counted in no
    bucket: appending it leaves [mood_distribution] unchanged. *)
Theorem mood_buckets_skip_missing_cells (df : DataFrame) (r : Row) :
  valence r = None \/ energy r = None ->
  mood_distribution (df ++ [r]) = mood_distribution df.
Proof.
  intros Hnan. apply map_eq. intros label.
  destruct (decide (label ∈ CANONICAL_EMOTIONS)) as [Hin|Hout].
  - rewrite !(mood_distribution_lookup _ label Hin), !apply_criteria_filter.
    rewrite List.filter_app. cbn [List.filter].
    rewrite (missing_cell_never_matches r label Hnan Hin).
    by rewrite app_nil_r.
  - by rewrite !(mood_distribution_lookup_none _ label Hout).
Qed.

Lemma mood_buckets_skip_missing_cells_witness :
  mood_distribution
    ([track_A; track_B]
     ++ [{| track_id := "N"; title := "N"; artist := ""; album := "";
            image_url := ""; preview_url := ""; url := "";
            duration_ms := Some 1000%Z; valence := None; energy := Some 0.5;
            tempo := Some 120; danceability := None; acousticness := None;
            key := 0; mode := 1 |}])
  = mood_distribution [track_A; track_B].
Proof.
  apply mood_buckets_skip_missing_cells. left. reflexivity.
Defined.

(** X6: the weight entry of a modality that is not usable has no effect:
    two weight arguments that agree on the usable modalities give the
    same result. *)
Theorem late_fusion_ignores_unused_weights f s t w1 w2 :
  (usable64 f -> weight_of64 w1 "face" 0.4 = weight_of64 w2 "face" 0.4) ->
  (usable64 s -> weight_of64 w1 "speech" 0.3 = weight_of64 w2 "speech" 0.3) ->
  (usable64 t -> weight_of64 w1 "text" 0.3 = weight_of64 w2 "text" 0.3) ->
  EmotionFusion64.late_fusion f s t w1 = EmotionFusion64.late_fusion f s t w2.
Proof.
  intros Hf Hs Ht.
  assert (Hw : used_weights64 f s t w1 = used_weights64 f s t w2).
  { unfold used_weights64, used, usable64 in *.
    destruct (f ≫= Modality64.probabilities) as [pf|];
      destruct (s ≫= Modality64.probabilities) as [ps|];
      destruct (t ≫= Modality64.probabilities) as [pt|];
      rewrite ?Hf, ?Hs, ?Ht by (by eexists); reflexivity. }
  unfold EmotionFusion64.late_fusion, EmotionFusion64.late_fusion_try.
  by rewrite !collect_all64_spec, Hw.
Qed.

Lemma late_fusion_ignores_unused_weights_witness :
  EmotionFusion64.late_fusion face_happy64 None None
    (Some {[ "face" := 0.4%float; "speech" := 5%float; "text" := 0%float ]})
  = EmotionFusion64.late_fusion face_happy64 None None None.
Proof.
  apply late_fusion_ignores_unused_weights.
  - intros _. reflexivity.
  - by intros [? ?].
  - by intros [? ?].
Defined.

(** X7: every call returns a result whose distribution has exactly the
    six canonical labels as keys, in the canonical order (a label of an
    input vector outside the six never appears), and whose weights
    mapping has exactly the used modalities as keys. *)
Theorem late_fusion_result_shape f s t w :
  exists r,
    EmotionFusion64.late_fusion f s t w = Py.Return r
    /\ Py64.keys (EmotionFusion64.probabilities r)
       = ["happy"; "sad"; "angry"; "calm"; "neutral"; "excited"]
    /\ (forall e, is_Some (Py64.store (EmotionFusion64.probabilities r) !! e)
                  <-> e ∈ EmotionFusion64.CANONICAL_EMOTIONS)
    /\ (forall m, is_Some (EmotionFusion64.weights r !! m)
                  <-> m ∈ EmotionFusion64.modalities_used r).
Proof.
  assert (Hneutral :
    Py64.keys (EmotionFusion64.probabilities EmotionFusion64.neutral_result)
    = ["happy"; "sad"; "angry"; "calm"; "neutral"; "excited"]
    /\ (forall e, is_Some (Py64.store (EmotionFusion64.probabilities
                                         EmotionFusion64.neutral_result) !! e)
                  <-> e ∈ EmotionFusion64.CANONICAL_EMOTIONS)
    /\ (forall m, is_Some (EmotionFusion64.weights
                             EmotionFusion64.neutral_result !! m)
                  <-> m ∈ EmotionFusion64.modalities_used
                            EmotionFusion64.neutral_result)).
  { split; [reflexivity|]. split.
    - intros e. symmetry.
      exact (comprehension64_ok (fun _ => (1 / 6)%float)
               EmotionFusion64.CANONICAL_EMOTIONS e).
    - intros m. cbn [EmotionFusion64.neutral_result EmotionFusion64.weights
                     EmotionFusion64.modalities_used].
      rewrite lookup_empty. split; [by intros [? ?]|by intros ?%elem_of_nil]. }
  destruct (decide (used_names64 f s t = [])) as [Hnil|Hne].
  - exists EmotionFusion64.neutral_result. split; [|exact Hneutral].
    unfold EmotionFusion64.late_fusion, EmotionFusion64.late_fusion_try.
    rewrite collect_all64_spec. cbn [EmotionFusion64.available_modalities].
    by rewrite Hnil.
  - assert (Hu : usable64 f \/ usable64 s \/ usable64 t).
    { unfold usable64, used_names64, used in *.
      destruct (f ≫= Modality64.probabilities); [left; by eexists|].
      destruct (s ≫= Modality64.probabilities); [right; left; by eexists|].
      destruct (t ≫= Modality64.probabilities); [right; right; by eexists|].
      done. }
    destruct (Py64.sum (used_weights64 f s t w) =? 0)%float eqn:Hsum.
    + exists EmotionFusion64.neutral_result. split; [|exact Hneutral].
      unfold EmotionFusion64.late_fusion.
      by rewrite late_fusion64_try_raises_zero.
    + pose proof (late_fusion64_computes f s t w Hu Hsum) as Hr.
      cbv zeta in Hr. eexists. split; [exact Hr|].
      cbn [EmotionFusion64.probabilities EmotionFusion64.weights
           EmotionFusion64.modalities_used].
      destruct (weighted_average64_spec (used_probs64 f s t)
                  (normalized64 (used_weights64 f s t w))) as [Hk _].
      split; [exact Hk|]. split.
      * intros e. rewrite <- Hk. symmetry. apply weighted_average64_ok.
      * intros m. apply list_to_map_zip_is_Some.
        unfold normalized64. rewrite length_map. symmetry.
        apply used_lengths64.
Qed.

(** * Properties of the speech rules and of the feature estimation *)

Lemma prediction_check_sound label floor o :
  prediction_check label floor o = true ->
  exists r,
    o = Py.Return r
    /\ Py64.keys (SpeechEmotionDetector.probabilities r)
       = ["happy"; "sad"; "angry"; "calm"; "neutral"; "excited"]
    /\ Forall (fun e => (0 <=? Py64.value (SpeechEmotionDetector.probabilities r) e)%float
                        = true)
              ["happy"; "sad"; "angry"; "calm"; "neutral"; "excited"]
    /\ (abs (Py64.sum (PyMore.values (SpeechEmotionDetector.probabilities r)) - 1)
        <=? 1e-15)%float = true
    /\ (SpeechEmotionDetector.confidence r
        =? Py64.value (SpeechEmotionDetector.probabilities r)
             (SpeechEmotionDetector.emotion r))%float = true
    /\ (floor <=? SpeechEmotionDetector.confidence r)%float = true
    /\ SpeechEmotionDetector.emotion r = label.
Proof.
  destruct o as [r|e]; [|discriminate]. unfold prediction_check.
  cbv zeta. rewrite !andb_true_iff.
  intros [[[[[H1 H2] H3] H4] H5] H6].
  exists r. split; [done|].
  split; [by apply bool_decide_eq_true in H1|].
  split.
  { apply Forall_forall. intros e He.
    rewrite forallb_forall in H2. apply H2. by apply list_elem_of_In. }
  split; [done|]. split; [done|].
  split; [done|by apply String.eqb_eq].
Qed.

Lemma speech_cases (features : SpeechEmotionDetector.Features) :
  prediction_check
    (speech_rule_label (SpeechEmotionDetector.energy features)
                       (SpeechEmotionDetector.tempo features))
    0.3
    (SpeechEmotionDetector.predict_from_features features)
  = true.
Proof.
  destruct features as [energy tempo pitch zcr].
  unfold SpeechEmotionDetector.predict_from_features, speech_rule_label.
  cbn [SpeechEmotionDetector.energy SpeechEmotionDetector.tempo
       SpeechEmotionDetector.pitch SpeechEmotionDetector.zcr].
  destruct ((0.05 <? energy)%float && (120 <? tempo)%float);
    [|destruct ((energy <? 0.03)%float && (tempo <? 100)%float);
      [|destruct ((0.04 <? energy)%float
                  && ((100 <=? tempo)%float && (tempo <=? 130)%float));
        [|destruct ((energy <? 0.04)%float
                    && ((90 <=? tempo)%float && (tempo <=? 120)%float))]]];
    destruct (0.1 <? zcr)%float; vm_compute; reflexivity.
Qed.

(** X8: [predict_from_features] never raises, and its result has the
    canonical labels as keys, in order, no negative entry, entries whose
    binary64 sum is within 1e-15 of 1, and as confidence the entry of the
    reported label, which is at least 0.3. *)
Theorem speech_prediction_is_distribution
    (features : SpeechEmotionDetector.Features) :
  exists r,
    SpeechEmotionDetector.predict_from_features features = Py.Return r
    /\ Py64.keys (SpeechEmotionDetector.probabilities r)
       = ["happy"; "sad"; "angry"; "calm"; "neutral"; "excited"]
    /\ Forall (fun e => (0 <=? Py64.value (SpeechEmotionDetector.probabilities r) e)%float
                        = true)
              ["happy"; "sad"; "angry"; "calm"; "neutral"; "excited"]
    /\ (abs (Py64.sum (PyMore.values (SpeechEmotionDetector.probabilities r)) - 1)
        <=? 1e-15)%float = true
    /\ (SpeechEmotionDetector.confidence r
        =? Py64.value (SpeechEmotionDetector.probabilities r)
             (SpeechEmotionDetector.emotion r))%float = true
    /\ (0.3 <=? SpeechEmotionDetector.confidence r)%float = true.
Proof.
  destruct (prediction_check_sound _ _ _ (speech_cases features))
    as (r & Hr & H1 & H2 & H3 & H4 & H5 & _).
  exists r. done.
Qed.

(** X9: the label reported by [predict_from_features] is that of the
    first energy/tempo rule that applies (excited, sad, happy, calm, or
    neutral when none does); zero-crossing rate and pitch never change
    it, and it is never [angry]. *)
Theorem speech_label_by_rule (features : SpeechEmotionDetector.Features) :
  exists r,
    SpeechEmotionDetector.predict_from_features features = Py.Return r
    /\ SpeechEmotionDetector.emotion r
       = speech_rule_label (SpeechEmotionDetector.energy features)
                           (SpeechEmotionDetector.tempo features)
    /\ SpeechEmotionDetector.emotion r <> "angry".
Proof.
  destruct (prediction_check_sound _ _ _ (speech_cases features))
    as (r & Hr & _ & _ & _ & _ & _ & He).
  exists r. split; [done|]. split; [done|].
  rewrite He. unfold speech_rule_label.
  repeat match goal with |- context [if ?c then _ else _] => destruct c end;
    discriminate.
Qed.

(** High energy, fast tempo and a high zero-crossing rate: the rule gives
    excited 0.4, angry 0.2, happy 0.2, the agitation step adds 0.1 to
    angry and to excited, and the total 1.0 leaves them as they are up to
    rounding. *)
Example speech_excited :
  exists r,
    SpeechEmotionDetector.predict_from_features
      {| SpeechEmotionDetector.energy := 0.08; SpeechEmotionDetector.tempo := 140;
         SpeechEmotionDetector.pitch := 200; SpeechEmotionDetector.zcr := 0.2 |}
    = Py.Return r
    /\ SpeechEmotionDetector.emotion r = "excited"
    /\ SpeechEmotionDetector.confidence r = 0.5%float
    /\ map (Py64.value (SpeechEmotionDetector.probabilities r))
           ["happy"; "sad"; "angry"; "calm"; "neutral"; "excited"]
       = [0.2; 0; 0.30000000000000004; 0; 0; 0.5]%float.
Proof. eexists. split; [vm_compute; reflexivity|]. by repeat split. Qed.

(** X10: [_estimate_features] returns exactly a valence and an energy
    estimate, both within [0, 1], whatever the genres; without genres
    both are 0.5. *)
Theorem estimate_features_in_unit (lower : string -> string)
    (genres : list string) :
  estimates_in_unit (GenreFeatures._estimate_features lower genres)
  /\ GenreFeatures._estimate_features lower []
     = {[ "valence" := 0.5%float; "energy" := 0.5%float ]}.
Proof.
  split; [|reflexivity].
  unfold GenreFeatures._estimate_features, estimates_in_unit.
  destruct (bool_decide (genres = [])).
  - by exists 0.5%float, 0.5%float.
  - set (text := lower (String.concat " " genres)).
    destruct (PyMore.any_in GenreFeatures.happy_keywords text),
      (PyMore.any_in GenreFeatures.sad_keywords text),
      (PyMore.any_in GenreFeatures.angry_keywords text),
      (PyMore.any_in GenreFeatures.calm_keywords text),
      (PyMore.any_in GenreFeatures.excited_keywords text);
      eexists _, _; (split; [reflexivity|]); by vm_compute.
Qed.

(** Genres naming a happy and an excited keyword: valence 0.5 + 0.4 + 0.3
    and energy 0.5 + 0.3 + 0.5 are clamped to 1.0; [piano] is both a sad
    and a calm keyword, so energy 0.5 - 0.3 - 0.4 is clamped to 0.0; and
    for [jazz] the energy 0.5 - 0.4 is the binary64 difference. *)
Example estimate_features_clamps :
  GenreFeatures._estimate_features PyMore.ascii_lower ["Dance Pop"; "EDM"]
  = {[ "valence" := 1%float; "energy" := 1%float ]}
  /\ GenreFeatures._estimate_features PyMore.ascii_lower ["sad piano"]
     = {[ "valence" := 0.3%float; "energy" := 0%float ]}
  /\ GenreFeatures._estimate_features PyMore.ascii_lower ["jazz"]
     = {[ "valence" := 0.7%float; "energy" := 0.09999999999999998%float ]}.
Proof. repeat split; vm_compute; reflexivity. Qed.
